(** * tc_viz: tropical-cyclone track loader and renderer

    A shallow embedding of the Python package [tc_viz] (modules
    [config], [ibtracs], [plot] and [cli]) together with the properties
    of the loader, the wind-radii geometry and the command line that the
    specification states.

    Conventions of the embedding.
    - A Python [float] is an exact rational or NaN ([pyfloat]); binary64
      rounding and the infinities are not represented, and no property
      below is one that holds only without rounding.
    - A [str] is a [string] whose characters are the code points below
      256; [str.upper], which leaves this range, belongs to the runtime.
    - A pandas [DataFrame] is its list of column labels and its list of
      rows; a row ([pd.Series]) is a finite map from labels to cells.
    - Drawing on a matplotlib/cartopy axes appends to the list of calls
      the axes has received; a Python exception is the [Raise] result.
    - Functions of pandas, cartopy and the Python runtime whose behaviour
      is not fixed by this repository are fields of the class [Runtime],
      among them whether cartopy accepts the extent it is asked to show;
      the files [pd.read_csv] can read are the parameter [read_csv] of the
      loader and of the command line.
    - [print] is not represented. *)

From Stdlib Require Import QArith Qround ZArith Lia Lqa Ascii String.
From stdpp Require Import gmap strings list pretty.

Local Open Scope Z_scope.

(** ** Python exceptions and results *)

Inductive exn : Type :=
| KeyError (key : string)
| IndexError
| ValueError
| TypeError
| ZeroDivisionError
| AttributeError
| OSError.

Inductive res (A : Type) : Type :=
| Ok (a : A)
| Raise (e : exn).
Arguments Ok {A} a.
Arguments Raise {A} e.

#[global] Instance res_ret : MRet res := fun _ a => Ok a.
#[global] Instance res_bind : MBind res := fun _ _ f m =>
  match m with Ok a => f a | Raise e => Raise e end.
#[global] Instance res_fmap : FMap res := fun _ _ f m =>
  match m with Ok a => Ok (f a) | Raise e => Raise e end.

Definition is_ok {A} (r : res A) : bool :=
  match r with Ok _ => true | Raise _ => false end.

(** [[f(x) for x in l]] where [f] may raise: the first exception wins. *)
Fixpoint map_res {A B} (f : A -> res B) (l : list A) : res (list B) :=
  match l with
  | [] => Ok []
  | x :: l' => y ← f x; ys ← map_res f l'; Ok (y :: ys)
  end.

(** ** Floats *)

Inductive pyfloat : Type :=
| NaN
| Fin (q : Q).

Definition float_lift2 (op : Q -> Q -> Q) (a b : pyfloat) : pyfloat :=
  match a, b with
  | Fin x, Fin y => Fin (op x y)
  | _, _ => NaN
  end.

Definition fadd : pyfloat -> pyfloat -> pyfloat := float_lift2 Qplus.
Definition fsub : pyfloat -> pyfloat -> pyfloat := float_lift2 Qminus.
Definition fmul : pyfloat -> pyfloat -> pyfloat := float_lift2 Qmult.

(** [a / b]: a zero divisor raises, NaN propagates. *)
Definition fdiv (a b : pyfloat) : res pyfloat :=
  match b with
  | Fin y => if Qeq_bool y 0 then Raise ZeroDivisionError
             else Ok (float_lift2 Qdiv a b)
  | NaN => Ok NaN
  end.

(** [x % m] on numbers: the result takes the sign of the divisor,
    [x - m * floor (x / m)]. *)
Definition py_mod (x m : Q) : Q :=
  (x - m * inject_Z (Qfloor (x / m)))%Q.

(** [a % b] on floats.  The divisor is the literal 360 at every call
    site, so the [ZeroDivisionError] of a zero divisor cannot occur. *)
Definition fmod : pyfloat -> pyfloat -> pyfloat := float_lift2 py_mod.

Definition float_eqb (a b : pyfloat) : bool :=
  match a, b with
  | Fin x, Fin y => Qeq_bool x y
  | _, _ => false
  end.

(** Equality of floats as numbers ([==] on the rationals); NaN is equal
    to nothing. *)
Definition float_eq (a b : pyfloat) : Prop :=
  match a, b with
  | Fin x, Fin y => (x == y)%Q
  | _, _ => False
  end.

Declare Scope float_scope.
Delimit Scope float_scope with F.
Bind Scope float_scope with pyfloat.
Notation "a + b" := (fadd a b) : float_scope.
Notation "a - b" := (fsub a b) : float_scope.
Notation "a * b" := (fmul a b) : float_scope.
Notation "a 'mod' b" := (fmod a b) : float_scope.

Definition of_int (z : Z) : pyfloat := Fin (inject_Z z).

(** ** Timestamps *)

Inductive datetime : Type :=
| NaT
| Timestamp (year month day hour minute second : Z).

Definition ts_fields (t : datetime) : option (list Z) :=
  match t with
  | NaT => None
  | Timestamp y mo d h mi s => Some [y; mo; d; h; mi; s]
  end.

Fixpoint lex_compare (a b : list Z) : comparison :=
  match a, b with
  | x :: a', y :: b' =>
      match Z.compare x y with Eq => lex_compare a' b' | c => c end
  | [], [] => Eq
  | [], _ :: _ => Lt
  | _ :: _, [] => Gt
  end.

(** [a >= b] and [a < b] on timestamps; any comparison with NaT is False. *)
Definition dt_ge (a b : datetime) : bool :=
  match ts_fields a, ts_fields b with
  | Some x, Some y => match lex_compare x y with Lt => false | _ => true end
  | _, _ => false
  end.

Definition dt_lt (a b : datetime) : bool :=
  match ts_fields a, ts_fields b with
  | Some x, Some y => match lex_compare x y with Lt => true | _ => false end
  | _, _ => false
  end.

(** ** Cells of a data frame *)

Inductive cell : Type :=
| CStr (s : string)
| CFloat (f : pyfloat)
| CInt (z : Z)
| CTime (t : datetime).

(** [v == s] for a string [s]. *)
Definition cell_eq_str (v : cell) (s : string) : bool :=
  match v with
  | CStr s' => bool_decide (s' = s)
  | _ => false
  end.

(** [pd.isna(v)] *)
Definition isna (v : cell) : bool :=
  match v with
  | CFloat NaN => true
  | CTime NaT => true
  | _ => false
  end.

(** ** Strings and the built-in conversions *)

Definition code (a : ascii) : Z := Z.of_N (N_of_ascii a).

(** The characters [int] skips around a literal: tab to carriage return
    and the space, and the two other white-space characters below 256,
    NEL and the no-break space.  The separators 28 to 31 are not among
    them: [int] raises on a text that starts or ends with one. *)
Definition py_isspace (a : ascii) : bool :=
  ((9 <=? code a) && (code a <=? 13)) || (code a =? 32)
  || (code a =? 133) || (code a =? 160).

Definition is_digit (a : ascii) : bool :=
  (48 <=? code a) && (code a <=? 57).

Fixpoint lstrip (l : list ascii) : list ascii :=
  match l with
  | a :: l' => if py_isspace a then lstrip l' else l
  | [] => []
  end.

Definition strip (l : list ascii) : list ascii :=
  reverse (lstrip (reverse (lstrip l))).

(** The digits of a decimal integer literal: digits, single underscores
    allowed between two digits.  [l] starts with a digit. *)
Fixpoint digits_value (acc : Z) (l : list ascii) : option Z :=
  match l with
  | [] => Some acc
  | a :: l' =>
      if is_digit a then digits_value (10 * acc + (code a - 48)) l'
      else if Ascii.eqb a "_" then
        match l' with
        | d :: _ => if is_digit d then digits_value acc l' else None
        | [] => None
        end
      else None
  end.

Definition unsigned_literal (l : list ascii) : option Z :=
  match l with
  | d :: _ => if is_digit d then digits_value 0 l else None
  | [] => None
  end.

(** [int(s)] for a string: surrounding whitespace, an optional sign, a
    decimal literal; anything else is a [ValueError]. *)
Definition int_of_str (s : string) : res Z :=
  let body := strip (list_ascii_of_string s) in
  let parsed :=
    match body with
    | a :: l' =>
        if Ascii.eqb a "-" then Z.opp <$> unsigned_literal l'
        else if Ascii.eqb a "+" then unsigned_literal l'
        else unsigned_literal body
    | [] => None
    end in
  match parsed with
  | Some z => Ok z
  | None => Raise ValueError
  end.

(** [int(x)] for a float: truncation towards zero. *)
Definition trunc (q : Q) : Z := Z.quot (Qnum q) (Z.pos (Qden q)).

(** [int(v)] *)
Definition py_int (v : cell) : res Z :=
  match v with
  | CStr s => int_of_str s
  | CFloat NaN => Raise ValueError
  | CFloat (Fin q) => Ok (trunc q)
  | CInt z => Ok z
  | CTime _ => Raise TypeError
  end.

(** [str(n)] for an integer. *)
Definition str_int (z : Z) : string := pretty z.

(** The two-digit, zero-padded fields of [strftime] ([%d], [%H]). *)
Definition two_digits (z : Z) : string :=
  if (0 <=? z) && (z <? 10) then "0" +:+ pretty z else pretty z.

(** ** The runtime outside the repository *)

Class Runtime : Type := {
  (** [s.upper()] *)
  str_upper : string -> string;
  (** [pd.to_datetime] on one value; [Raise] when it cannot be parsed. *)
  to_datetime : cell -> res datetime;
  (** [float(s)] for a string. *)
  float_of_str : string -> res pyfloat;
  (** [str(x)] for a finite float. *)
  float_repr : Q -> string;
  (** [str(t)] for a timestamp. *)
  datetime_str : datetime -> string;
  (** [ax.projection.transform_point(lon, lat, src_crs)] *)
  transform_point : pyfloat -> pyfloat -> pyfloat * pyfloat;
  (** [ax.set_extent(extents, crs=...)]: whether cartopy accepts the
      extent or raises. *)
  set_extent : list pyfloat -> res unit;
  (** An extent whose four bounds are NaN is refused with a
      [ValueError]. *)
  set_extent_nan : set_extent [NaN; NaN; NaN; NaN] = Raise ValueError
}.

(** ** Data frames *)

Abbreviation Series := (gmap string cell).

Record DataFrame : Type := {
  columns : list string;
  rows : list Series
}.

(** The value of a row under a column label of its frame; a hole in a
    frame reads as NaN. *)
Definition cell_at (r : Series) (c : string) : cell :=
  default (CFloat NaN) (r !! c).

(** [row[k]] on a single row. *)
Definition getitem (r : Series) (k : string) : res cell :=
  match r !! k with
  | Some v => Ok v
  | None => Raise (KeyError k)
  end.

(** [len(df)] *)
Definition len (df : DataFrame) : nat := length (rows df).

(** [df.iloc[1:, :]] *)
Definition iloc_from_1 (df : DataFrame) : DataFrame :=
  {| columns := columns df; rows := tail (rows df) |}.

(** [df[p(df[c])]]: boolean indexing by a test on column [c]. *)
Definition where_ (c : string) (p : cell -> bool) (df : DataFrame) : res DataFrame :=
  if bool_decide (c ∈ columns df)
  then Ok {| columns := columns df;
             rows := List.filter (fun r => p (cell_at r c)) (rows df) |}
  else Raise (KeyError c).

(** [df[dst] = f(df[src])], [f] applied value by value. *)
Definition assign (dst src : string) (f : cell -> res cell) (df : DataFrame) : res DataFrame :=
  if bool_decide (src ∈ columns df)
  then
    rs ← map_res (fun r => v ← f (cell_at r src); Ok (<[dst := v]> r)) (rows df);
    Ok {| columns := if bool_decide (dst ∈ columns df) then columns df
                     else columns df ++ [dst];
          rows := rs |}
  else Raise (KeyError src).

(** [df[cols]]: the listed columns, in the listed order. *)
Definition select_columns (cols : list string) (df : DataFrame) : res DataFrame :=
  match List.find (fun c => negb (bool_decide (c ∈ columns df))) cols with
  | Some c => Raise (KeyError c)
  | None =>
      Ok {| columns := cols;
            rows := (fun r : Series => filter (fun kv => kv.1 ∈ cols) r) <$> rows df |}
  end.

(** [float(v)], also the element-wise [astype(float)]. *)
Definition to_float `{Runtime} (v : cell) : res pyfloat :=
  match v with
  | CStr s => float_of_str s
  | CFloat f => Ok f
  | CInt z => Ok (of_int z)
  | CTime _ => Raise TypeError
  end.

Definition cell_time (v : cell) : datetime :=
  match v with
  | CTime t => t
  | _ => NaT
  end.

(** [str(v)], as an f-string formats a value. *)
Definition cell_str `{Runtime} (v : cell) : string :=
  match v with
  | CStr s => s
  | CFloat NaN => "nan"
  | CFloat (Fin q) => float_repr q
  | CInt z => str_int z
  | CTime t => datetime_str t
  end.

(** ** config.py *)

Module config.
Definition COLOR_R34 : string := "crimson".
Definition COLOR_R50 : string := "blue".
Definition COLOR_R64 : string := "green".
Definition ARC_LINEWIDTH : pyfloat := Fin 2.
Definition MARKER_SIZE : pyfloat := Fin 7.
Definition MARKER_EDGE_WIDTH : pyfloat := Fin (5 # 2).
Definition MARKER_FACE_COLOR : string := "blue".
Definition MARKER_EDGE_COLOR : string := "white".
Definition MAP_OFFSET : pyfloat := Fin 10.
Definition FIGURE_SIZE : Z * Z := (20, 25).
Definition GRID_LON_STEP : Z := 10.
Definition GRID_LAT_STEP : Z := 10.
Definition RADIUS_SCALE : pyfloat := Fin 70.
Definition ANNOTATION_OFFSET_POS : Z * Z := (180, 5).
Definition ANNOTATION_OFFSET_NEG : Z * Z := (-280, -5).
End config.

(** ** ibtracs.py *)

Module ibtracs.
Section ibtracs.
Context `{Runtime}.
(** [pd.read_csv(path, low_memory=False)] on the files at hand. *)
Variable read_csv : string -> res DataFrame.

Definition _EXTRACT_VARS : list string := [
  "NAME"; "ISO_TIME"; "WMO_WIND"; "WMO_PRES"; "LAT"; "LON";
  "USA_R34_NE"; "USA_R34_NW"; "USA_R34_SE"; "USA_R34_SW";
  "USA_R50_NE"; "USA_R50_NW"; "USA_R50_SE"; "USA_R50_SW";
  "USA_R64_NE"; "USA_R64_NW"; "USA_R64_SE"; "USA_R64_SW";
  "REUNION_R34_NE"; "REUNION_R34_NW"; "REUNION_R34_SE"; "REUNION_R34_SW";
  "REUNION_R50_NE"; "REUNION_R50_NW"; "REUNION_R50_SE"; "REUNION_R50_SW";
  "REUNION_R64_NE"; "REUNION_R64_NW"; "REUNION_R64_SE"; "REUNION_R64_SW";
  "BOM_R34_NE"; "BOM_R34_SE"; "BOM_R34_NW"; "BOM_R34_SW";
  "BOM_R50_NE"; "BOM_R50_SE"; "BOM_R50_NW"; "BOM_R50_SW";
  "BOM_R64_NE"; "BOM_R64_SE"; "BOM_R64_NW"; "BOM_R64_SW"
]%string.

(** Convert longitude from -180/180 to 0-360 degrees. *)
Definition _lon_to_360 (dlon : pyfloat) : pyfloat :=
  ((Fin 360 + (dlon mod Fin 360)) mod Fin 360)%F.

Definition get_storm_track (name : string) (year : Z) (ibtracs_csv : string)
    (filter_missing_wmo : bool) : res DataFrame :=
  data ← read_csv ibtracs_csv;
  let data := iloc_from_1 data in
  year_start ← to_datetime (CStr (str_int year));
  year_end ← to_datetime (CStr (str_int (year + 1)));
  data ← where_ "NAME" (fun v => cell_eq_str v name) data;
  data ← assign "ISO_TIME" "ISO_TIME" (fun v => CTime <$> to_datetime v) data;
  data ← where_ "ISO_TIME"
           (fun v => dt_ge (cell_time v) year_start && dt_lt (cell_time v) year_end)
           data;
  data ← select_columns _EXTRACT_VARS data;
  data ← (if filter_missing_wmo
          then data ← where_ "WMO_WIND" (fun v => negb (cell_eq_str v " ")) data;
               where_ "WMO_PRES" (fun v => negb (cell_eq_str v " ")) data
          else Ok data);
  data ← assign "LON_180" "LON" Ok data;
  assign "LON" "LON" (fun v => f ← to_float v; Ok (CFloat (_lon_to_360 f))) data.
End ibtracs.
End ibtracs.

(** ** Drawing *)

(** [patches.Arc(xy, width, height, theta1=, theta2=, lw=, ec=, fc=)] *)
Record Arc : Type := {
  arc_xy : pyfloat * pyfloat;
  arc_width : pyfloat;
  arc_height : pyfloat;
  arc_theta1 : Z;
  arc_theta2 : Z;
  arc_lw : pyfloat;
  arc_ec : string;
  arc_fc : string
}.

(** The calls the figure and its axes receive.  Of the grid lines it
    keeps the two locators; the label switches and styles, which are
    constants, are left out. *)
Inductive call : Type :=
| plt_figure (figsize : Z * Z)
| ax_add_feature (feature : string)
| ax_set_extent (extents : list pyfloat)
| ax_gridlines (xlocator ylocator : list Z)
| ax_add_patch (arc : Arc)
| ax_hlines (y xmin xmax : list pyfloat) (lw : pyfloat) (colors : string)
| ax_vlines (x ymin ymax : list pyfloat) (lw : pyfloat) (colors : string)
| ax_plot (x y : pyfloat) (marker : string) (markersize markeredgewidth : pyfloat)
    (markerfacecolor markeredgecolor : string)
| ax_annotate (text : string) (xy : pyfloat * pyfloat) (xytext : Z * Z)
| plt_savefig (path : string)
| plt_show.

(** A drawing computation: the calls it makes, in order, and its result. *)
Definition Draw (A : Type) : Type := list call * res A.

#[global] Instance draw_ret : MRet Draw := fun _ a => ([], Ok a).
#[global] Instance draw_bind : MBind Draw := fun _ _ f m =>
  match m with
  | (out, Ok a) => let '(out', r) := f a in (out ++ out', r)
  | (out, Raise e) => (out, Raise e)
  end.

Definition emit (c : call) : Draw unit := ([c], Ok tt).
(** A call that the library may refuse: it is received, then raises. *)
Definition attempt (c : call) (r : res unit) : Draw unit := ([c], r).
Definition lift {A} (r : res A) : Draw A := ([], r).
Definition calls {A} (m : Draw A) : list call := m.1.
Definition result {A} (m : Draw A) : res A := m.2.

(** [for x in l: body(x)] *)
Fixpoint for_ {A} (l : list A) (body : A -> Draw unit) : Draw unit :=
  match l with
  | [] => mret tt
  | x :: l' => body x ;; for_ l' body
  end.

(** [l[i]] for a non-negative literal index. *)
Definition index {A} (l : list A) (i : nat) : res A :=
  match l !! i with
  | Some x => Ok x
  | None => Raise IndexError
  end.

(** [range(start, stop, step)] with a positive step. *)
Definition py_range (start stop step : Z) : list Z :=
  (fun i => start + i * step) <$> seqZ 0 ((stop - start + step - 1) `div` step).

(** [Series.min()] and [Series.max()]: NaN entries are skipped, and the
    result is NaN when nothing is left. *)
Definition float_min (a b : pyfloat) : pyfloat :=
  match a, b with
  | Fin x, Fin y => if Qle_bool x y then a else b
  | NaN, _ => b
  | _, NaN => a
  end.

Definition float_max (a b : pyfloat) : pyfloat :=
  match a, b with
  | Fin x, Fin y => if Qle_bool x y then b else a
  | NaN, _ => b
  | _, NaN => a
  end.

Definition series_min (l : list pyfloat) : pyfloat := foldr float_min NaN l.
Definition series_max (l : list pyfloat) : pyfloat := foldr float_max NaN l.

(** [df[c].astype(float)] *)
Definition column_as_float `{Runtime} (df : DataFrame) (c : string) : res (list pyfloat) :=
  if bool_decide (c ∈ columns df)
  then map_res (fun r => to_float (cell_at r c)) (rows df)
  else Raise (KeyError c).

(** [t.strftime("%d/%H")] *)
Definition strftime_d_H (v : cell) : res string :=
  match v with
  | CTime (Timestamp _ _ d h _ _) => Ok (two_digits d +:+ "/" +:+ two_digits h)
  | CTime NaT => Raise ValueError
  | _ => Raise AttributeError
  end.

(** ** plot.py *)

Module plot.
Import config.
Section plot.
Context `{Runtime}.

(** Draw four quadrant arcs representing a wind radius ring.
    Quadrant order: SE, NE, SW, NW.  [patches.Arc] is taken to accept
    its arguments, as it does for radii that are numbers; what it does
    with a NaN radius is not represented. *)
Definition draw_wind_radii_arcs (xcenter ycenter : pyfloat) (radii : list pyfloat)
    (lw : pyfloat) (ec : string) : Draw unit :=
  for_ (zip radii [0; 90; 180; 270]) (fun '(rad, theta) =>
    let arc := {| arc_xy := (xcenter, ycenter);
                  arc_width := (Fin 2 * rad)%F; arc_height := (Fin 2 * rad)%F;
                  arc_theta1 := theta; arc_theta2 := theta + 90;
                  arc_lw := lw; arc_ec := ec; arc_fc := "none" |} in
    emit (ax_add_patch arc)) ;;
  (* Horizontal spokes *)
  r0 ← lift (index radii 0); r1 ← lift (index radii 1);
  r3 ← lift (index radii 3); r2 ← lift (index radii 2);
  emit (ax_hlines
          [ycenter; ycenter]
          [xcenter + r0; xcenter - r1]%F
          [xcenter + r3; xcenter - r2]%F
          lw ec) ;;
  (* Vertical spokes *)
  emit (ax_vlines
          [xcenter; xcenter]
          [ycenter + r0; ycenter - r2]%F
          [ycenter + r1; ycenter - r3]%F
          lw ec).

(** Extract and scale the four quadrant radii for a given wind
    threshold.  Returns [None] if any quadrant value is missing. *)
Definition _parse_radii (row : Series) (prefix : string) (scale : pyfloat)
    : res (option (list pyfloat)) :=
  let quads := (fun q => prefix +:+ "_" +:+ q) <$> ["SE"; "NE"; "SW"; "NW"] in
  values ← map_res (getitem row) quads;
  if existsb (fun v => cell_eq_str v " " || isna v) values
  then Ok None
  else radii ← map_res (fun v => z ← py_int v; fdiv (of_int z) scale) values;
       Ok (Some radii).

(** Configure the cartopy axes with coastlines, borders, and gridlines. *)
Definition _setup_map (min_lat max_lat min_lon max_lon offset : pyfloat) : Draw unit :=
  emit (ax_add_feature "BORDERS") ;;
  emit (ax_add_feature "COASTLINE") ;;
  (let extents :=
     [min_lon - offset; max_lon + offset; min_lat - offset; max_lat + offset]%F in
   attempt (ax_set_extent extents) (set_extent extents)) ;;
  emit (ax_gridlines (py_range (-180) 190 GRID_LON_STEP)
                     (py_range (-80) 90 GRID_LAT_STEP)).

(** The wind radii of one threshold at one track point. *)
Definition draw_threshold (row : Series) (at_x at_y : pyfloat) (radius_scale : pyfloat)
    (pc : string * string) : Draw unit :=
  let '(prefix, color) := pc in
  radii ← lift (_parse_radii row prefix radius_scale);
  match radii with
  | Some radii => draw_wind_radii_arcs at_x at_y radii ARC_LINEWIDTH color
  | None => mret tt
  end.

(** One iteration of the loop over the track, with the current [sign]. *)
Definition plot_row (color_r34 color_r50 color_r64 : string) (radius_scale : pyfloat)
    (sign : Z) (row : Series) : Draw unit :=
  lon ← lift (v ← getitem row "LON"; to_float v);
  lat ← lift (v ← getitem row "LAT"; to_float v);
  let '(at_x, at_y) := transform_point lon lat in
  (* Draw wind radii arcs for each threshold *)
  for_ [("USA_R34", color_r34); ("USA_R50", color_r50); ("USA_R64", color_r64)]
       (draw_threshold row at_x at_y radius_scale) ;;
  (* Track marker *)
  emit (ax_plot lon lat "o" MARKER_SIZE MARKER_EDGE_WIDTH
          MARKER_FACE_COLOR MARKER_EDGE_COLOR) ;;
  (* Annotation: date/time, wind, pressure *)
  time_str ← lift (v ← getitem row "ISO_TIME"; d ← strftime_d_H v; Ok (d +:+ "Z"));
  wind ← lift (getitem row "WMO_WIND");
  pres ← lift (getitem row "WMO_PRES");
  let info_str := time_str +:+ ", " +:+ cell_str wind +:+ " KTS, "
                  +:+ cell_str pres +:+ " hPa" in
  let '(x_off, y_off) :=
    if 0 <? sign then ANNOTATION_OFFSET_POS else ANNOTATION_OFFSET_NEG in
  emit (ax_annotate info_str (at_x, at_y) (x_off, y_off)).

(** [for i in range(len(track))]: the rows in order, [sign *= -1] after
    each. *)
Fixpoint plot_rows (color_r34 color_r50 color_r64 : string) (radius_scale : pyfloat)
    (sign : Z) (track_rows : list Series) : Draw unit :=
  match track_rows with
  | [] => mret tt
  | row :: rest =>
      plot_row color_r34 color_r50 color_r64 radius_scale sign row ;;
      plot_rows color_r34 color_r50 color_r64 radius_scale (sign * -1) rest
  end.

(** Plot a TC track with wind radii arcs and time/wind/pressure
    annotations. *)
Definition plot_track (track : DataFrame) (storm_name : string)
    (output_path : option string) (figsize : Z * Z) (map_offset : pyfloat)
    (color_r34 color_r50 color_r64 : string) (radius_scale : pyfloat) : Draw unit :=
  emit (plt_figure figsize) ;;
  (* Map bounds from track extent *)
  lats ← lift (column_as_float track "LAT");
  lons ← lift (column_as_float track "LON");
  _setup_map (series_min lats) (series_max lats) (series_min lons) (series_max lons)
             map_offset ;;
  let sign := 1 in
  plot_rows color_r34 color_r50 color_r64 radius_scale sign (rows track) ;;
  match output_path with
  | Some path => if bool_decide (path = "") then emit plt_show
                 else emit (plt_savefig path)
  | None => emit plt_show
  end.

End plot.
End plot.

(** ** cli.py *)

Module cli.
Import config.
Section cli.
Context `{Runtime}.
Variable read_csv : string -> res DataFrame.

(** The parsed command line. *)
Record Namespace : Type := {
  name : string;
  year : Z;
  ibt_csv : string;
  output : option string;
  map_offset : pyfloat;
  color_r34 : string;
  color_r50 : string;
  color_r64 : string;
  radius_scale : pyfloat;
  (** [--no-filter-wmo] was passed *)
  no_filter_wmo : bool
}.

Definition storm_name (args : Namespace) : string := str_upper (name args).

(** [args.output or f"{storm_name}_{args.year}_track.png"] *)
Definition output_path (args : Namespace) : string :=
  match output args with
  | Some p => if bool_decide (p = "")
              then storm_name args +:+ "_" +:+ str_int (year args) +:+ "_track.png"
              else p
  | None => storm_name args +:+ "_" +:+ str_int (year args) +:+ "_track.png"
  end.

(** 2021 IBTrACS data has blank WMO fields *)
Definition filter_wmo (args : Namespace) : bool :=
  negb (no_filter_wmo args) && negb (year args =? 2021).

Definition main (args : Namespace) : Draw unit :=
  track ← lift (ibtracs.get_storm_track read_csv
                  (storm_name args) (year args) (ibt_csv args) (filter_wmo args));
  plot.plot_track track (storm_name args) (Some (output_path args))
    FIGURE_SIZE (map_offset args)
    (color_r34 args) (color_r50 args) (color_r64 args) (radius_scale args).

End cli.
End cli.

(** ** A runtime and archives to evaluate the program on

    The results below hold for every [Runtime].  To run the program on
    concrete archives, this instance reads timestamps written
    [YYYY-MM-DD HH:MM:SS] (or a bare year), floats written as plain
    decimals, upper-cases the letters a to z, projects a point onto
    itself, and accepts every extent that has no NaN bound. *)

Module sample.

Definition upper_char (a : ascii) : ascii :=
  if (97 <=? code a) && (code a <=? 122)
  then ascii_of_N (Z.to_N (code a - 32))
  else a.

Fixpoint upper (s : string) : string :=
  match s with
  | EmptyString => EmptyString
  | String a s' => String (upper_char a) (upper s')
  end.

Definition is_nan (f : pyfloat) : bool :=
  match f with NaN => true | Fin _ => false end.

Fixpoint take_digits (n : nat) (acc : Z) (l : list ascii) : option (Z * list ascii) :=
  match n with
  | O => Some (acc, l)
  | S n' =>
      match l with
      | a :: l' => if is_digit a then take_digits n' (10 * acc + (code a - 48)) l'
                   else None
      | [] => None
      end
  end.

Definition expect (c : ascii) (l : list ascii) : option (list ascii) :=
  match l with
  | a :: l' => if Ascii.eqb a c then Some l' else None
  | [] => None
  end.

Definition parse_iso (s : string) : option datetime :=
  '(y, l) ← take_digits 4 0 (list_ascii_of_string s);
  match l with
  | [] => Some (Timestamp y 1 1 0 0 0)
  | _ =>
      l ← expect "-" l; '(mo, l) ← take_digits 2 0 l;
      l ← expect "-" l; '(d, l) ← take_digits 2 0 l;
      l ← expect " " l; '(h, l) ← take_digits 2 0 l;
      l ← expect ":" l; '(mi, l) ← take_digits 2 0 l;
      l ← expect ":" l; '(s, l) ← take_digits 2 0 l;
      match l with
      | [] => Some (Timestamp y mo d h mi s)
      | _ => None
      end
  end.

Fixpoint span_digits (acc : Z) (n : nat) (l : list ascii) : Z * nat * list ascii :=
  match l with
  | a :: l' => if is_digit a then span_digits (10 * acc + (code a - 48)) (S n) l'
               else (acc, n, l)
  | [] => (acc, n, [])
  end.

Definition parse_decimal (s : string) : option Q :=
  let body := strip (list_ascii_of_string s) in
  let '(neg, body) :=
    match body with
    | a :: l' => if Ascii.eqb a "-" then (true, l')
                 else if Ascii.eqb a "+" then (false, l') else (false, body)
    | [] => (false, [])
    end in
  let '(ip, n, rest) := span_digits 0 0 body in
  if bool_decide (n = O) then None
  else
    let finish (num : Z) (den : positive) :=
      Some (if neg : bool then Qmake (- num) den else Qmake num den) in
    match rest with
    | [] => finish ip 1%positive
    | a :: l' =>
        if Ascii.eqb a "." then
          let '(fp, k, rest') := span_digits 0 0 l' in
          match rest' with
          | [] => finish (ip * 10 ^ Z.of_nat k + fp) (Z.to_pos (10 ^ Z.of_nat k))
          | _ => None
          end
        else None
    end.

Definition show_datetime (t : datetime) : string :=
  match t with
  | NaT => "NaT"
  | Timestamp y mo d h mi s =>
      pretty y +:+ "-" +:+ two_digits mo +:+ "-" +:+ two_digits d +:+ " "
      +:+ two_digits h +:+ ":" +:+ two_digits mi +:+ ":" +:+ two_digits s
  end.

#[export] Instance runtime : Runtime := {|
  str_upper := upper;
  to_datetime v :=
    match v with
    | CStr s => match parse_iso s with Some t => Ok t | None => Raise ValueError end
    | CFloat NaN => Ok NaT
    | CTime t => Ok t
    | _ => Raise TypeError
    end;
  float_of_str s :=
    match parse_decimal s with Some q => Ok (Fin q) | None => Raise ValueError end;
  float_repr q := pretty (Qnum q) +:+ "/" +:+ pretty (Z.pos (Qden q));
  datetime_str := show_datetime;
  transform_point lon lat := (lon, lat);
  set_extent e := if existsb is_nan e then Raise ValueError else Ok tt;
  set_extent_nan := eq_refl
|}.

(** A row of an archive: the named fields, every other extracted column
    blank. *)
Definition blank_row : Series :=
  list_to_map ((fun c => (c, CStr " ")) <$> ibtracs._EXTRACT_VARS).

Definition archive_row (fields : list (string * cell)) : Series :=
  list_to_map fields ∪ blank_row.

Definition units_row : Series :=
  archive_row [("ISO_TIME", CStr " "); ("WMO_WIND", CStr "kts"); ("WMO_PRES", CStr "mb");
               ("LAT", CStr "degrees_north"); ("LON", CStr "degrees_east")].

Definition archive (data : list Series) : DataFrame :=
  {| columns := ibtracs._EXTRACT_VARS; rows := units_row :: data |}.

Definition observation (name time wind pres lat lon : string)
    (r34 : list (string * cell)) : Series :=
  archive_row ([("NAME", CStr name); ("ISO_TIME", CStr time); ("WMO_WIND", CStr wind);
                ("WMO_PRES", CStr pres); ("LAT", CStr lat); ("LON", CStr lon)] ++ r34).

Definition r34 (se ne sw nw : cell) : list (string * cell) :=
  [("USA_R34_SE", se); ("USA_R34_NE", ne); ("USA_R34_SW", sw); ("USA_R34_NW", nw)].

(** One storm, TESTSTORM 2020, one observation. *)
Definition teststorm : DataFrame :=
  archive [observation "TESTSTORM" "2020-08-26 12:00:00" "50" "980" "20.0" "-40.0"
             (r34 (CStr "50") (CStr "60") (CStr "40") (CStr "55"))].

(** IDA 2021 with its official fields blank, and one 2020 storm. *)
Definition mixed : DataFrame :=
  archive [observation "IDA" "2021-08-26 12:00:00" " " " " "17.4" "-79.5" [];
           observation "IDA" "2021-08-26 18:00:00" "35" "1004" "18.3" "-80.2" [];
           observation "LAURA" "2020-08-26 12:00:00" " " "980" "26.0" "-92.0" [];
           observation "LAURA" "2020-08-26 18:00:00" "120" "940" "27.3" "-92.9"
             (r34 (CStr "150") (CStr "130") (CStr "60") (CStr "80"));
           observation "LAURA" "2020-08-27 00:00:00" "130" "939" "28.3" "-93.3"
             (r34 (CStr "150") (CStr "abc") (CStr "60") (CStr "80"))].

(** An archive whose empty fields were read as NaN. *)
Definition holes : DataFrame :=
  archive [archive_row [("NAME", CStr "LAURA"); ("ISO_TIME", CStr "2020-08-26 12:00:00");
                        ("WMO_WIND", CFloat NaN); ("WMO_PRES", CStr "980");
                        ("LAT", CStr "26.0"); ("LON", CStr "-92.0")]].

(** A storm whose 34-kt radii are numbers, one of them written with a
    decimal point. *)
Definition decimal : DataFrame :=
  archive [observation "DECIMAL" "2020-08-26 12:00:00" "50" "980" "20.0" "-40.0"
             (r34 (CStr "50.5") (CStr "60") (CStr "40") (CStr "55"))].

Definition files (path : string) : res DataFrame :=
  if bool_decide (path = "teststorm.csv") then Ok teststorm
  else if bool_decide (path = "mixed.csv") then Ok mixed
  else if bool_decide (path = "holes.csv") then Ok holes
  else if bool_decide (path = "decimal.csv") then Ok decimal
  else Raise OSError.

Definition args (name : string) (year : Z) (csv : string) (flag : bool) : cli.Namespace :=
  {| cli.name := name; cli.year := year; cli.ibt_csv := csv; cli.output := None;
     cli.map_offset := config.MAP_OFFSET;
     cli.color_r34 := config.COLOR_R34; cli.color_r50 := config.COLOR_R50;
     cli.color_r64 := config.COLOR_R64;
     cli.radius_scale := config.RADIUS_SCALE; cli.no_filter_wmo := flag |}.

End sample.

(** ** Reading the calls a drawing made *)

Definition point : Type := pyfloat * pyfloat.
Definition segment : Type := point * point.

(** The line segments of a call: [hlines(y, xmin, xmax)] draws, for each
    [i], the segment from [(xmin[i], y[i])] to [(xmax[i], y[i])];
    [vlines(x, ymin, ymax)] the segment from [(x[i], ymin[i])] to
    [(x[i], ymax[i])]. *)
Definition segments (c : call) : list segment :=
  match c with
  | ax_hlines y xmin xmax _ _ =>
      (fun '(y, (a, b)) => ((a, y), (b, y))) <$> zip y (zip xmin xmax)
  | ax_vlines x ymin ymax _ _ =>
      (fun '(x, (a, b)) => ((x, a), (x, b))) <$> zip x (zip ymin ymax)
  | _ => []
  end.

Definition arcs (c : call) : list Arc :=
  match c with
  | ax_add_patch a => [a]
  | _ => []
  end.

Definition annotations (c : call) : list (string * point * (Z * Z)) :=
  match c with
  | ax_annotate text xy xytext => [(text, xy, xytext)]
  | _ => []
  end.

Definition markers (c : call) : list point :=
  match c with
  | ax_plot x y _ _ _ _ _ => [(x, y)]
  | _ => []
  end.

Definition extents (c : call) : list (list pyfloat) :=
  match c with
  | ax_set_extent e => [e]
  | _ => []
  end.

Definition all_of {A B} (f : call -> list B) (m : Draw A) : list B :=
  concat (f <$> calls m).

(** Two segments are the same when their end points agree as numbers,
    in either direction. *)
Definition point_eqb (p q : point) : bool :=
  float_eqb p.1 q.1 && float_eqb p.2 q.2.

Definition segment_eqb (s t : segment) : bool :=
  (point_eqb s.1 t.1 && point_eqb s.2 t.2) || (point_eqb s.1 t.2 && point_eqb s.2 t.1).

Definition point_eq (p q : point) : Prop :=
  float_eq p.1 q.1 /\ float_eq p.2 q.2.

(** The segment [s] joins [p] and [q]. *)
Definition joins (s : segment) (p q : point) : Prop :=
  (point_eq s.1 p /\ point_eq s.2 q) \/ (point_eq s.1 q /\ point_eq s.2 p).

Definition same_segments (l1 l2 : list segment) : bool :=
  forallb (fun s => existsb (segment_eqb s) l2) l1
  && forallb (fun s => existsb (segment_eqb s) l1) l2.

(** The connector spokes as the specification words them: horizontal
    from [x + SE] to [x - NE] and from [x + NW] to [x - SW], vertical
    from [y + SE] to [y - SW] and from [y + NE] to [y - NW]. *)
Definition spec_spokes (x y se ne sw nw : pyfloat) : list segment :=
  [ ((x + se, y), (x - ne, y)); ((x + nw, y), (x - sw, y));
    ((x, y + se), (x, y - sw)); ((x, y + ne), (x, y - nw)) ]%F.

(** The point of an arc at an angle that is a multiple of 90 degrees,
    angle 0 along the positive horizontal axis, counter-clockwise. *)
Definition arc_point (a : Arc) (theta : Z) : option point :=
  let rx := float_lift2 Qdiv (arc_width a) (Fin 2) in
  let ry := float_lift2 Qdiv (arc_height a) (Fin 2) in
  let '(x, y) := arc_xy a in
  match theta `mod` 360 with
  | 0 => Some (x + rx, y)
  | 90 => Some (x, y + ry)
  | 180 => Some (x - rx, y)
  | 270 => Some (x, y - ry)
  | _ => None
  end%F.

Definition in_range (lo hi : Q) (f : pyfloat) : Prop :=
  match f with
  | Fin q => (lo <= q < hi)%Q
  | NaN => False
  end.

(** A quadrant value counts as absent when it is the blank field or a
    missing value; as numeric when it is a number: an integer, a finite
    float, or text that [float] reads as a finite number; as integral
    when [int] accepts it: an integer, a finite float, or the text of an
    integer. *)
Definition absent (v : cell) : bool := cell_eq_str v " " || isna v.

Definition numeric `{Runtime} (v : cell) : bool :=
  match v with
  | CStr s => match float_of_str s with Ok (Fin _) => true | _ => false end
  | CFloat (Fin _) => true
  | CFloat NaN => false
  | CInt _ => true
  | CTime _ => false
  end.

Definition integral (v : cell) : bool := is_ok (py_int v).

(** The four quadrant values of a threshold in a row, for SE, NE, SW and
    NW, and whether all four are present. *)
Definition quadrants (row : Series) (prefix : string) : list cell :=
  (fun q => cell_at row (prefix +:+ "_" +:+ q)) <$> ["SE"; "NE"; "SW"; "NW"].

Definition group_present (row : Series) (prefix : string) : bool :=
  forallb (fun v => negb (absent v)) (quadrants row prefix).

(** The thresholds of a track in the order the renderer visits them: row
    by row, 34, 50 and 64 kt, each with its colour. *)
Definition thresholds (c34 c50 c64 : string) : list (string * string) :=
  [("USA_R34", c34); ("USA_R50", c50); ("USA_R64", c64)].

Definition groups (track : DataFrame) (c34 c50 c64 : string)
    : list (Series * (string * string)) :=
  row ← rows track; (fun pc => (row, pc)) <$> thresholds c34 c50 c64.

(** Every row of a frame satisfies [P]. *)
Definition every_row (P : Series -> Prop) (df : DataFrame) : Prop :=
  Forall P (rows df).

(** The annotation offset chosen for a value of [sign]. *)
Definition side (sign : Z) : Z * Z :=
  if 0 <? sign then config.ANNOTATION_OFFSET_POS else config.ANNOTATION_OFFSET_NEG.

(** The frame of a load that succeeded; the empty frame otherwise. *)
Definition loaded (r : res DataFrame) : DataFrame :=
  match r with
  | Ok track => track
  | Raise _ => {| columns := []; rows := [] |}
  end.

(** The track of IDA 2021 in the sample archive, loaded unfiltered. *)
Definition ida_2021 : DataFrame :=
  loaded (ibtracs.get_storm_track (H := sample.runtime) sample.files
            "IDA" 2021 "mixed.csv" false).

(** Neither official field of the row is the blank field. *)
Definition official_fields_given (r : Series) : bool :=
  negb (cell_eq_str (cell_at r "WMO_WIND") " ")
  && negb (cell_eq_str (cell_at r "WMO_PRES") " ").

(** The extracted fields of [r], other than the time and the longitude,
    are those of [r'] unchanged. *)
Definition passed_through (r r' : Series) : Prop :=
  forall c, c ∈ ibtracs._EXTRACT_VARS -> c <> "ISO_TIME" -> c <> "LON" ->
            r' !! c = r !! c.

(** The archive rows a load is expected to select: those with the name,
    a time that parses into the year from [ys] to [ye] and, when the
    filter is on, no blank official field. *)
Definition selects `{Runtime} (name : string) (ys ye : datetime) (flt : bool)
    (r : Series) : bool :=
  cell_eq_str (cell_at r "NAME") name
  && match to_datetime (cell_at r "ISO_TIME") with
     | Ok t => dt_ge t ys && dt_lt t ye
     | Raise _ => false
     end
  && (negb flt || official_fields_given r).

(** The longitude of the archive row [r] as the loaded row [r'] holds
    it: unchanged under LON_180, as a float normalised to 0-360 under
    LON. *)
Definition longitude_of `{Runtime} (r r' : Series) : Prop :=
  r' !! "LON_180" = Some (cell_at r "LON")
  /\ exists f, to_float (cell_at r "LON") = Ok f
               /\ r' !! "LON" = Some (CFloat (ibtracs._lon_to_360 f)).

(** The archive row [r] loaded as [r']: the time parsed, the longitude
    kept and normalised, the other extracted fields unchanged. *)
Definition loads_to `{Runtime} (r r' : Series) : Prop :=
  passed_through r r'
  /\ (exists t, to_datetime (cell_at r "ISO_TIME") = Ok t
                /\ r' !! "ISO_TIME" = Some (CTime t))
  /\ longitude_of r r'.

(** The rows of [df] come, in order, from rows of [base], with the
    extracted fields other than the time and the longitude unchanged. *)
Definition traced (base : list Series) (df : DataFrame) : Prop :=
  exists k, k `sublist_of` base /\ Forall2 passed_through k (rows df).

(** Line width and colour of the line collections of a call. *)
Definition line_styles (c : call) : list (pyfloat * string) :=
  match c with
  | ax_hlines _ _ _ lw colors => [(lw, colors)]
  | ax_vlines _ _ _ lw colors => [(lw, colors)]
  | _ => []
  end.

(** The calls that put the figure out: saving it or showing it. *)
Definition outputs (c : call) : list call :=
  match c with
  | plt_savefig _ => [c]
  | plt_show => [c]
  | _ => []
  end.

(** The parts of one iteration of [plot_track]'s loop: the point of the
    row, its rings, its marker and the text of its annotation. *)
Definition row_point `{Runtime} (row : Series) : res (pyfloat * pyfloat) :=
  lon ← (v ← getitem row "LON"; to_float v);
  lat ← (v ← getitem row "LAT"; to_float v);
  Ok (lon, lat).

Definition row_text `{Runtime} (row : Series) : res string :=
  time_str ← (v ← getitem row "ISO_TIME"; d ← strftime_d_H v; Ok (d +:+ "Z"));
  wind ← getitem row "WMO_WIND";
  pres ← getitem row "WMO_PRES";
  Ok (time_str +:+ ", " +:+ cell_str wind +:+ " KTS, " +:+ cell_str pres +:+ " hPa").

Definition row_rings `{Runtime} (c34 c50 c64 : string) (scale : pyfloat)
    (row : Series) (at_xy : pyfloat * pyfloat) : Draw unit :=
  for_ [("USA_R34", c34); ("USA_R50", c50); ("USA_R64", c64)]
       (plot.draw_threshold row at_xy.1 at_xy.2 scale).

Definition row_marker (lon lat : pyfloat) : call :=
  ax_plot lon lat "o" config.MARKER_SIZE config.MARKER_EDGE_WIDTH
    config.MARKER_FACE_COLOR config.MARKER_EDGE_COLOR.


(** The extent [plot_track] asks for, from the latitudes and longitudes
    of the track and the padding, and the calls of a base map that was
    set up with an extent. *)
Definition track_extent (lats lons : list pyfloat) (offset : pyfloat) : list pyfloat :=
  [series_min lons - offset; series_max lons + offset;
   series_min lats - offset; series_max lats + offset]%F.

Definition base_map (e : list pyfloat) : list call :=
  [ax_add_feature "BORDERS"; ax_add_feature "COASTLINE"; ax_set_extent e;
   ax_gridlines (py_range (-180) 190 config.GRID_LON_STEP)
                (py_range (-80) 90 config.GRID_LAT_STEP)].

(** The call that ends a plot. *)
Definition final_call (output_path : option string) : call :=
  match output_path with
  | Some path => if bool_decide (path = "") then plt_show else plt_savefig path
  | None => plt_show
  end.

(** More tracks to evaluate on: LAURA 2020 loaded unfiltered and
    filtered, TESTSTORM 2020, and the storm with a decimal radius. *)
Definition laura_2020 : DataFrame :=
  loaded (ibtracs.get_storm_track (H := sample.runtime) sample.files
            "LAURA" 2020 "mixed.csv" false).

Definition laura_2020_official : DataFrame :=
  loaded (ibtracs.get_storm_track (H := sample.runtime) sample.files
            "LAURA" 2020 "mixed.csv" true).

Definition teststorm_2020 : DataFrame :=
  loaded (ibtracs.get_storm_track (H := sample.runtime) sample.files
            "TESTSTORM" 2020 "teststorm.csv" true).


(** * Properties *)

(** ** Longitude normalisation *)

Section normalisation.
Local Open Scope Q_scope.

Lemma py_mod_bounds (x m : Q) : 0 < m -> 0 <= py_mod x m < m.
Proof.
  intros Hm. unfold py_mod.
  pose proof (Qfloor_le (x / m)) as Hlo.
  pose proof (Qlt_floor (x / m)) as Hhi.
  rewrite inject_Z_plus in Hhi.
  set (k := inject_Z (Qfloor (x / m))) in *.
  assert (Hx : x == m * (x / m)) by (field; lra).
  split.
  - assert (m * k <= m * (x / m)) by (apply Qmult_le_l; assumption).
    lra.
  - assert (m * (x / m) < m * (k + inject_Z 1)) by (apply Qmult_lt_l; assumption).
    change (inject_Z 1) with 1 in *. lra.
Qed.

Lemma Qfloor_plus_1 (y : Q) : Qfloor (y + 1) = (Qfloor y + 1)%Z.
Proof.
  pose proof (Qfloor_le y) as Hlo. pose proof (Qlt_floor y) as Hhi.
  pose proof (Qfloor_le (y + 1)) as Hlo'. pose proof (Qlt_floor (y + 1)) as Hhi'.
  rewrite inject_Z_plus in Hhi, Hhi'. change (inject_Z 1) with 1 in *.
  assert (H1 : inject_Z (Qfloor (y + 1)) < inject_Z (Qfloor y + 1 + 1)).
  { rewrite !inject_Z_plus. change (inject_Z 1) with 1. lra. }
  assert (H2 : inject_Z (Qfloor y + 1) < inject_Z (Qfloor (y + 1) + 1)).
  { rewrite !inject_Z_plus. change (inject_Z 1) with 1. lra. }
  rewrite <- Zlt_Qlt in H1, H2. lia.
Qed.

Lemma py_mod_period (x m : Q) : 0 < m -> py_mod (x + m) m == py_mod x m.
Proof.
  intros Hm. unfold py_mod.
  assert (E : (x + m) / m == x / m + 1) by (field; lra).
  rewrite (Qfloor_comp _ _ E), Qfloor_plus_1, inject_Z_plus.
  change (inject_Z 1) with 1. ring.
Qed.

Lemma py_mod_comp (x y m : Q) : x == y -> py_mod x m == py_mod y m.
Proof.
  intros E. unfold py_mod.
  assert (E' : x / m == y / m) by (rewrite E; reflexivity).
  rewrite (Qfloor_comp _ _ E'), E. reflexivity.
Qed.

End normalisation.

(** C4. For every signed longitude [L] with [-180 <= L < 180],
    [_lon_to_360 L] lies in [[0, 360)] and equals [_lon_to_360 (L + 360)]. *)
Theorem lon_to_360_range_and_period (L : Q) :
  (-180 <= L < 180)%Q ->
  in_range 0 360 (ibtracs._lon_to_360 (Fin L))
  /\ float_eq (ibtracs._lon_to_360 (Fin L)) (ibtracs._lon_to_360 (Fin L + Fin 360)%F).
Proof.
  intros _. cbn. split.
  - apply py_mod_bounds. reflexivity.
  - apply py_mod_comp. apply Qplus_inj_l.
    symmetry. apply py_mod_period. reflexivity.
Qed.

Lemma lon_to_360_range_and_period_witness :
  in_range 0 360 (ibtracs._lon_to_360 (Fin (-40)))
  /\ float_eq (ibtracs._lon_to_360 (Fin (-40))) (ibtracs._lon_to_360 (Fin (-40) + Fin 360)%F).
Proof.
  apply (lon_to_360_range_and_period (-40)). split; [discriminate | reflexivity].
Defined.

(** ** Wind-radii geometry *)

(** C2. For every centre and four radii [[SE; NE; SW; NW]],
    [draw_wind_radii_arcs] adds exactly four arcs centred at the point:
    SE from 0 to 90 degrees, NE from 90 to 180, SW from 180 to 270 and NW
    from 270 to 360, each with width and height twice its own radius. *)
Theorem four_quadrant_arcs (x y se ne sw nw lw : pyfloat) (ec : string) :
  all_of arcs (plot.draw_wind_radii_arcs x y [se; ne; sw; nw] lw ec) =
  (fun '(rad, theta1, theta2) =>
     {| arc_xy := (x, y);
        arc_width := (Fin 2 * rad)%F; arc_height := (Fin 2 * rad)%F;
        arc_theta1 := theta1; arc_theta2 := theta2;
        arc_lw := lw; arc_ec := ec; arc_fc := "none" |})
  <$> [(se, 0, 90); (ne, 90, 180); (sw, 180, 270); (nw, 270, 360)].
Proof. reflexivity. Qed.

(** C1, as the code has it.  For every centre [(x, y)] and four radii
    [[SE; NE; SW; NW]], [draw_wind_radii_arcs] succeeds and draws four
    spokes: at height [y], one from [x + SE] to [x + NW] and one from
    [x - NE] to [x - SW]; at abscissa [x], one from [y + SE] to [y + NE]
    and one from [y - SW] to [y - NW]. *)
Theorem spokes_join_adjacent_quadrants (x y se ne sw nw lw : pyfloat) (ec : string) :
  let m := plot.draw_wind_radii_arcs x y [se; ne; sw; nw] lw ec in
  result m = Ok tt
  /\ all_of segments m =
     [ ((x + se, y), (x + nw, y)); ((x - ne, y), (x - sw, y));
       ((x, y + se), (x, y + ne)); ((x, y - sw), (x, y - nw)) ]%F.
Proof. split; reflexivity. Qed.

(** C1, as the specification words it, fails: around the origin with
    radii 1, 2, 3, 4 the spokes drawn are not the segments from
    [x + SE] to [x - NE], from [x + NW] to [x - SW], from [y + SE] to
    [y - SW] and from [y + NE] to [y - NW], whatever their order and
    direction. *)
Lemma spec_spokes_are_not_drawn :
  same_segments
    (all_of segments
       (plot.draw_wind_radii_arcs (Fin 0) (Fin 0) [Fin 1; Fin 2; Fin 3; Fin 4]
          config.ARC_LINEWIDTH config.COLOR_R34))
    (spec_spokes (Fin 0) (Fin 0) (Fin 1) (Fin 2) (Fin 3) (Fin 4))
  = false.
Proof. reflexivity. Qed.

(** Why the spokes are wired this way: each one closes the gap between
    the end of one quadrant's arc and the start of the next, so that the
    ring is one closed outline. *)
Lemma spokes_close_the_outline (x y se ne sw nw : Q) (lw : pyfloat) (ec : string) :
  let m := plot.draw_wind_radii_arcs (Fin x) (Fin y) [Fin se; Fin ne; Fin sw; Fin nw] lw ec in
  forall i a b, all_of arcs m !! i = Some a ->
    all_of arcs m !! ((i + 1) `mod` 4)%nat = Some b ->
    exists p q s, arc_point a (arc_theta2 a) = Some p
      /\ arc_point b (arc_theta1 b) = Some q
      /\ s ∈ all_of segments m
      /\ joins s p q.
Proof.
  intros m i a b Ha Hb.
  assert (Hs : forall s, In s (all_of segments m) -> s ∈ all_of segments m)
    by (intros s; apply list_elem_of_In).
  destruct i as [|[|[|[|i]]]]; cbn in Ha, Hb; try discriminate;
    injection Ha as <-; injection Hb as <-.
  - eexists _, _, ((Fin (x), Fin (y + se)), (Fin x, Fin (y + ne)))%Q.
    split; [reflexivity|]. split; [reflexivity|]. split; [apply Hs; cbn; tauto|].
    left. repeat split; cbn; try reflexivity; field.
  - eexists _, _, ((Fin (x - ne), Fin y), (Fin (x - sw), Fin y))%Q.
    split; [reflexivity|]. split; [reflexivity|]. split; [apply Hs; cbn; tauto|].
    left. repeat split; cbn; try reflexivity; field.
  - eexists _, _, ((Fin x, Fin (y - sw)), (Fin x, Fin (y - nw)))%Q.
    split; [reflexivity|]. split; [reflexivity|]. split; [apply Hs; cbn; tauto|].
    left. repeat split; cbn; try reflexivity; field.
  - eexists _, _, ((Fin (x + se), Fin y), (Fin (x + nw), Fin y))%Q.
    split; [reflexivity|]. split; [reflexivity|]. split; [apply Hs; cbn; tauto|].
    right. repeat split; cbn; try reflexivity; field.
Qed.

(** ** Facts about drawing computations *)

Lemma calls_bind {A B} (m : Draw A) (f : A -> Draw B) :
  calls (m ≫= f) =
  calls m ++ match result m with Ok a => calls (f a) | Raise _ => [] end.
Proof.
  destruct m as [out [a|e]]; cbn.
  - destruct (f a); reflexivity.
  - symmetry. apply app_nil_r.
Qed.

Lemma result_bind {A B} (m : Draw A) (f : A -> Draw B) :
  result (m ≫= f) =
  match result m with Ok a => result (f a) | Raise e => Raise e end.
Proof.
  destruct m as [out [a|e]]; cbn; [destruct (f a)|]; reflexivity.
Qed.

Lemma all_of_bind {A B C} (g : call -> list C) (m : Draw A) (f : A -> Draw B) :
  all_of g (m ≫= f) =
  all_of g m ++ match result m with Ok a => all_of g (f a) | Raise _ => [] end.
Proof.
  unfold all_of. rewrite calls_bind, fmap_app, concat_app.
  destruct (result m); reflexivity.
Qed.

Lemma all_of_lift {A C} (g : call -> list C) (r : res A) : all_of g (lift r) = [].
Proof. reflexivity. Qed.

Lemma all_of_for {A C} (g : call -> list C) (l : list A) (body : A -> Draw unit) :
  (forall x, all_of g (body x) = []) -> all_of g (for_ l body) = [].
Proof.
  intros Hbody. induction l as [|x l IH]; [reflexivity|].
  cbn [for_]. rewrite all_of_bind, Hbody. destruct (result (body x)); auto.
Qed.

(** ** Quadrant radii of one threshold *)

Lemma integral_not_absent (v : cell) : integral v = true -> absent v = false.
Proof.
  unfold integral, absent. destruct v as [s|[|q]|z|[|]]; cbn; try discriminate; auto.
  intros Hint. rewrite orb_false_r. apply bool_decide_eq_false. intros ->.
  vm_compute in Hint. discriminate.
Qed.

Lemma parse_radii_cases (row : Series) (prefix : string) (scale : pyfloat)
    (se ne sw nw : cell) :
  getitem row (prefix +:+ "_" +:+ "SE") = Ok se ->
  getitem row (prefix +:+ "_" +:+ "NE") = Ok ne ->
  getitem row (prefix +:+ "_" +:+ "SW") = Ok sw ->
  getitem row (prefix +:+ "_" +:+ "NW") = Ok nw ->
  plot._parse_radii row prefix scale =
  if absent se || absent ne || absent sw || absent nw then Ok None
  else radii ← map_res (fun v => z ← py_int v; fdiv (of_int z) scale) [se; ne; sw; nw];
       Ok (Some radii).
Proof.
  intros Hse Hne Hsw Hnw. unfold plot._parse_radii.
  cbn [fmap list_fmap map_res]. rewrite Hse, Hne, Hsw, Hnw.
  cbn [mbind res_bind existsb]. unfold absent.
  rewrite orb_false_r, !orb_assoc. reflexivity.
Qed.

Lemma scaled_radius (v : cell) (q : Q) :
  integral v = true -> ~ (q == 0)%Q ->
  exists r, (z ← py_int v; fdiv (of_int z) (Fin q)) = Ok (Fin r).
Proof.
  unfold integral. intros Hint Hq.
  destruct (py_int v) as [z|]; [|discriminate]. cbn.
  destruct (Qeq_bool q 0) eqn:E; [|eauto].
  apply Qeq_bool_iff in E. contradiction.
Qed.

(** Four present values that [int] accepts, scaled by a number that is
    not zero, are drawn: the ring of one threshold is then four arcs and
    four spokes, and nothing raises. *)
Lemma integral_group_is_drawn (row : Series) (prefix color : string)
    (q : Q) (at_x at_y : pyfloat) (se ne sw nw : cell) :
  getitem row (prefix +:+ "_" +:+ "SE") = Ok se ->
  getitem row (prefix +:+ "_" +:+ "NE") = Ok ne ->
  getitem row (prefix +:+ "_" +:+ "SW") = Ok sw ->
  getitem row (prefix +:+ "_" +:+ "NW") = Ok nw ->
  ~ (q == 0)%Q ->
  integral se && integral ne && integral sw && integral nw = true ->
  let m := plot.draw_threshold row at_x at_y (Fin q) (prefix, color) in
  result m = Ok tt /\ length (all_of arcs m) = 4%nat
  /\ length (all_of segments m) = 4%nat.
Proof.
  intros Hse Hne Hsw Hnw Hscale Hint m. subst m. unfold plot.draw_threshold.
  rewrite (parse_radii_cases _ _ _ _ _ _ _ Hse Hne Hsw Hnw).
  apply andb_true_iff in Hint as [Hint Hd].
  apply andb_true_iff in Hint as [Hint Hc].
  apply andb_true_iff in Hint as [Ha Hb].
  rewrite !integral_not_absent by assumption.
  destruct (scaled_radius se q Ha Hscale) as [r0 E0].
  destruct (scaled_radius ne q Hb Hscale) as [r1 E1].
  destruct (scaled_radius sw q Hc Hscale) as [r2 E2].
  destruct (scaled_radius nw q Hd Hscale) as [r3 E3].
  cbn [map_res orb]. rewrite E0, E1, E2, E3. repeat split.
Qed.

(** C7, as the code has it.  When one of the four quadrant values of a
    row is the blank field or a missing value, [_parse_radii] returns
    [None] and raises nothing, whatever the other three values are, and
    the renderer draws nothing for that row and threshold. *)
Theorem absent_quadrant_parses_to_none (row : Series) (prefix color : string)
    (scale at_x at_y : pyfloat) (se ne sw nw : cell) :
  getitem row (prefix +:+ "_" +:+ "SE") = Ok se ->
  getitem row (prefix +:+ "_" +:+ "NE") = Ok ne ->
  getitem row (prefix +:+ "_" +:+ "SW") = Ok sw ->
  getitem row (prefix +:+ "_" +:+ "NW") = Ok nw ->
  absent se || absent ne || absent sw || absent nw = true ->
  plot._parse_radii row prefix scale = Ok None
  /\ plot.draw_threshold row at_x at_y scale (prefix, color) = ([], Ok tt).
Proof.
  intros Hse Hne Hsw Hnw Habs. unfold plot.draw_threshold.
  rewrite (parse_radii_cases _ _ _ _ _ _ _ Hse Hne Hsw Hnw), Habs.
  split; reflexivity.
Qed.

Lemma absent_quadrant_parses_to_none_witness :
  let row := sample.observation "LAURA" "2020-08-26 18:00:00" "120" "940" "27.3" "-92.9"
               (sample.r34 (CStr "150") (CFloat NaN) (CStr "abc") (CStr " ")) in
  plot._parse_radii row "USA_R34" config.RADIUS_SCALE = Ok None
  /\ plot.draw_threshold row (Fin 0) (Fin 0) config.RADIUS_SCALE
       ("USA_R34", config.COLOR_R34) = ([], Ok tt).
Proof.
  apply (absent_quadrant_parses_to_none _ "USA_R34" config.COLOR_R34
           config.RADIUS_SCALE (Fin 0) (Fin 0)
           (CStr "150") (CFloat NaN) (CStr "abc") (CStr " "));
    reflexivity.
Defined.

(** C7, as the specification words it, fails: a quadrant value that is
    text but not a number is neither blank nor missing, and
    [_parse_radii] raises [ValueError] on it instead of returning
    [None]. *)
Lemma non_numeric_quadrant_raises :
  let row := sample.observation "LAURA" "2020-08-27 00:00:00" "130" "939" "28.3" "-93.3"
               (sample.r34 (CStr "150") (CStr "abc") (CStr "60") (CStr "80")) in
  getitem row "USA_R34_NE" = Ok (CStr "abc")
  /\ numeric (H := sample.runtime) (CStr "abc") = false
  /\ plot._parse_radii row "USA_R34" config.RADIUS_SCALE = Raise ValueError
  /\ plot._parse_radii row "USA_R34" config.RADIUS_SCALE <> Ok None.
Proof.
  intros row. repeat split; vm_compute; solve [reflexivity | discriminate].
Qed.

(** ** Facts about results and data frames *)

Lemma bind_ok {A B} (m : res A) (f : A -> res B) (b : B) :
  m ≫= f = Ok b -> exists a, m = Ok a /\ f a = Ok b.
Proof. destruct m as [a|e]; [eauto | discriminate]. Qed.

Lemma map_res_ok {A B} (f : A -> res B) (l : list A) (l' : list B) :
  map_res f l = Ok l' -> Forall2 (fun x y => f x = Ok y) l l'.
Proof.
  revert l'. induction l as [|x l IH]; intros l' Hl; cbn in Hl.
  - injection Hl as <-. constructor.
  - apply bind_ok in Hl as (y & Hy & Hl). apply bind_ok in Hl as (ys & Hys & Hl).
    injection Hl as <-. constructor; auto.
Qed.

Lemma loaded_ok (r : res DataFrame) : is_ok r = true -> r = Ok (loaded r).
Proof. destruct r; [reflexivity | discriminate]. Qed.

Lemma lookup_default {A} (l : list A) (i : nat) (d : A) :
  (i < length l)%nat -> l !! i = Some (default d (l !! i)).
Proof.
  intros Hi. destruct (l !! i) eqn:E; [reflexivity|].
  apply lookup_ge_None in E. lia.
Qed.

Lemma Forall2_Forall_r {A B} (R : A -> B -> Prop) (P : A -> Prop) (Q : B -> Prop)
    (l : list A) (l' : list B) :
  (forall x y, P x -> R x y -> Q y) -> Forall P l -> Forall2 R l l' -> Forall Q l'.
Proof.
  intros HPQ HP HR. induction HR as [|x y l l' Hxy _ IH]; constructor.
  - inversion HP; subst. eauto.
  - apply IH. inversion HP; subst. assumption.
Qed.

Lemma Forall_filter {A} (P : A -> Prop) (p : A -> bool) (l : list A) :
  (forall x, x ∈ l -> p x = true -> P x) -> Forall P (List.filter p l).
Proof.
  intros H. apply Forall_forall. intros x Hx.
  apply list_elem_of_In, filter_In in Hx as [Hx Hp].
  apply H; [apply list_elem_of_In|]; assumption.
Qed.

Lemma where_ok (c : string) (p : cell -> bool) (df df' : DataFrame) :
  where_ c p df = Ok df' ->
  columns df' = columns df
  /\ rows df' = List.filter (fun r => p (cell_at r c)) (rows df).
Proof.
  unfold where_. case_bool_decide; [|discriminate].
  intros [= <-]. split; reflexivity.
Qed.

Lemma where_total (c : string) (p : cell -> bool) (df : DataFrame) :
  c ∈ columns df ->
  where_ c p df = Ok {| columns := columns df;
                        rows := List.filter (fun r => p (cell_at r c)) (rows df) |}.
Proof. intros Hc. unfold where_. rewrite bool_decide_eq_true_2; auto. Qed.

Lemma assign_ok (dst src : string) (f : cell -> res cell) (df df' : DataFrame) :
  assign dst src f df = Ok df' ->
  Forall2 (fun r r' => exists v, f (cell_at r src) = Ok v /\ r' = <[dst := v]> r)
          (rows df) (rows df').
Proof.
  unfold assign. case_bool_decide; [|discriminate]. intros Hrows.
  apply bind_ok in Hrows as (rs & Hrs & [= <-]). cbn.
  apply map_res_ok in Hrs. eapply Forall2_impl; [exact Hrs|].
  cbn. intros r r' Hr. apply bind_ok in Hr as (v & Hv & [= <-]). eauto.
Qed.

Lemma select_columns_ok (cols : list string) (df df' : DataFrame) :
  select_columns cols df = Ok df' ->
  columns df' = cols
  /\ rows df' = (fun r : Series => filter (fun kv => kv.1 ∈ cols) r) <$> rows df.
Proof.
  unfold select_columns. destruct (find _ cols); [discriminate|].
  intros [= <-]. split; reflexivity.
Qed.

Lemma select_columns_total (cols : list string) (df : DataFrame) :
  cols ⊆ columns df ->
  select_columns cols df =
  Ok {| columns := cols;
        rows := (fun r : Series => filter (fun kv => kv.1 ∈ cols) r) <$> rows df |}.
Proof.
  intros Hcols. unfold select_columns.
  destruct (find _ cols) as [c|] eqn:Hfind; [|reflexivity].
  apply find_some in Hfind as [Hin Hc].
  apply negb_true_iff, bool_decide_eq_false in Hc.
  contradiction Hc. apply Hcols, list_elem_of_In, Hin.
Qed.

Lemma cell_eq_str_lookup (r : Series) (c s : string) :
  cell_eq_str (cell_at r c) s = true -> r !! c = Some (CStr s).
Proof.
  unfold cell_at. destruct (r !! c) as [[s'| | |]|]; cbn; try discriminate.
  intros Hs. apply bool_decide_eq_true in Hs. congruence.
Qed.

Lemma lookup_cell_eq_str (r : Series) (c s : string) :
  r !! c = Some (CStr s) -> cell_eq_str (cell_at r c) s = true.
Proof.
  unfold cell_at. intros ->. cbn. apply bool_decide_eq_true. reflexivity.
Qed.

Lemma every_row_where (P : Series -> Prop) c p df df' :
  where_ c p df = Ok df' -> every_row P df -> every_row P df'.
Proof.
  intros Hw HP. apply where_ok in Hw as [_ Hrows]. unfold every_row. rewrite Hrows.
  apply Forall_filter. intros r Hr _. revert r Hr. apply Forall_forall, HP.
Qed.

Lemma every_row_where_new (P : Series -> Prop) c p df df' :
  where_ c p df = Ok df' ->
  (forall r, p (cell_at r c) = true -> P r) -> every_row P df'.
Proof.
  intros Hw HP. apply where_ok in Hw as [_ Hrows]. unfold every_row. rewrite Hrows.
  apply Forall_filter. auto.
Qed.

Lemma every_row_assign (P : Series -> Prop) dst src f df df' :
  assign dst src f df = Ok df' ->
  (forall r v, P r -> P (<[dst := v]> r)) ->
  every_row P df -> every_row P df'.
Proof.
  intros Ha Hins HP. apply assign_ok in Ha. unfold every_row in *.
  eapply Forall2_Forall_r; [|exact HP|exact Ha].
  cbn. intros r r' Hr (v & _ & ->). auto.
Qed.

Lemma every_row_select (P : Series -> Prop) cols df df' :
  select_columns cols df = Ok df' ->
  (forall r : Series, P r -> P (filter (fun kv => kv.1 ∈ cols) r)) ->
  every_row P df -> every_row P df'.
Proof.
  intros Hs Hproj HP. apply select_columns_ok in Hs as [_ Hrows].
  unfold every_row in *. rewrite Hrows. apply Forall_fmap.
  eapply Forall_impl; [exact HP|]. auto.
Qed.

(** ** The loader *)

Section loader.
Context `{Runtime} (read_csv : string -> res DataFrame).

Lemma extract_var_kept (c : string) (v : cell) (r : Series) :
  c ∈ ibtracs._EXTRACT_VARS -> r !! c = Some v ->
  (filter (fun kv => kv.1 ∈ ibtracs._EXTRACT_VARS) r : Series) !! c = Some v.
Proof. intros Hc Hr. apply map_lookup_filter_Some. auto. Qed.

Lemma extract_var_origin (c : string) (v : cell) (r : Series) :
  (filter (fun kv => kv.1 ∈ ibtracs._EXTRACT_VARS) r : Series) !! c = Some v ->
  r !! c = Some v.
Proof. intros Hr. apply map_lookup_filter_Some in Hr as [Hr _]. exact Hr. Qed.

(** The rows the loader returns carry exactly the requested name. *)
Lemma returned_rows_have_the_name name year path flt track :
  ibtracs.get_storm_track read_csv name year path flt = Ok track ->
  every_row (fun r => r !! "NAME" = Some (CStr name)) track.
Proof.
  unfold ibtracs.get_storm_track. intros Hrun.
  apply bind_ok in Hrun as (archive & _ & Hrun). cbv zeta in Hrun.
  apply bind_ok in Hrun as (ys & _ & Hrun).
  apply bind_ok in Hrun as (ye & _ & Hrun).
  apply bind_ok in Hrun as (named & Hnamed & Hrun).
  apply bind_ok in Hrun as (timed & Htimed & Hrun).
  apply bind_ok in Hrun as (inyear & Hinyear & Hrun).
  apply bind_ok in Hrun as (cols & Hcols & Hrun).
  apply bind_ok in Hrun as (kept & Hkept & Hrun).
  apply bind_ok in Hrun as (both & Hboth & Hrun).
  eapply every_row_assign; [exact Hrun| |].
  { intros r v Hr. rewrite lookup_insert_ne; [exact Hr | discriminate]. }
  eapply every_row_assign; [exact Hboth| |].
  { intros r v Hr. rewrite lookup_insert_ne; [exact Hr | discriminate]. }
  assert (Hc : every_row (fun r => r !! "NAME" = Some (CStr name)) cols).
  { eapply every_row_select; [exact Hcols| |].
    { intros r Hr. apply extract_var_kept; [|exact Hr].
      apply (bool_decide_unpack _). vm_compute. exact I. }
    eapply every_row_where; [exact Hinyear|].
    eapply every_row_assign; [exact Htimed| |].
    { intros r v Hr. rewrite lookup_insert_ne; [exact Hr | discriminate]. }
    eapply every_row_where_new; [exact Hnamed|].
    intros r. apply cell_eq_str_lookup. }
  destruct flt.
  - apply bind_ok in Hkept as (wind & Hwind & Hpres).
    eapply every_row_where; [exact Hpres|].
    eapply every_row_where; [exact Hwind|]. exact Hc.
  - injection Hkept as <-. exact Hc.
Qed.

(** With the filter enabled, no returned row has a blank official wind
    or a blank official pressure. *)
Lemma filter_drops_blank_official_fields name year path track :
  ibtracs.get_storm_track read_csv name year path true = Ok track ->
  every_row (fun r => r !! "WMO_WIND" <> Some (CStr " ")
                      /\ r !! "WMO_PRES" <> Some (CStr " ")) track.
Proof.
  unfold ibtracs.get_storm_track. intros Hrun.
  apply bind_ok in Hrun as (archive & _ & Hrun). cbv zeta in Hrun.
  apply bind_ok in Hrun as (ys & _ & Hrun).
  apply bind_ok in Hrun as (ye & _ & Hrun).
  apply bind_ok in Hrun as (named & _ & Hrun).
  apply bind_ok in Hrun as (timed & _ & Hrun).
  apply bind_ok in Hrun as (inyear & _ & Hrun).
  apply bind_ok in Hrun as (cols & _ & Hrun).
  apply bind_ok in Hrun as (kept & Hkept & Hrun).
  apply bind_ok in Hrun as (both & Hboth & Hrun).
  apply bind_ok in Hkept as (wind & Hwind & Hpres).
  assert (Hblank : forall (r : Series) c,
             negb (cell_eq_str (cell_at r c) " ") = true -> r !! c <> Some (CStr " ")).
  { intros r c Hneg Hr. apply lookup_cell_eq_str in Hr. rewrite Hr in Hneg. discriminate. }
  eapply every_row_assign; [exact Hrun| |].
  { intros r v [Hw Hp]. rewrite !lookup_insert_ne by discriminate. auto. }
  eapply every_row_assign; [exact Hboth| |].
  { intros r v [Hw Hp]. rewrite !lookup_insert_ne by discriminate. auto. }
  apply Forall_and. split.
  - eapply (every_row_where (fun r => r !! "WMO_WIND" <> Some (CStr " ")));
      [exact Hpres|].
    eapply every_row_where_new; [exact Hwind|]. intros r. apply Hblank.
  - eapply every_row_where_new; [exact Hpres|]. intros r. apply Hblank.
Qed.

Lemma times_out_of_range (ys ye : datetime) (l : list Series) :
  Forall (fun r => exists t, to_datetime (cell_at r "ISO_TIME") = Ok t
                             /\ dt_ge t ys && dt_lt t ye = false) l ->
  exists timed,
    map_res (fun r => v ← CTime <$> to_datetime (cell_at r "ISO_TIME");
                      Ok (<["ISO_TIME" := v]> r)) l = Ok timed
    /\ List.filter (fun r => dt_ge (cell_time (cell_at r "ISO_TIME")) ys
                             && dt_lt (cell_time (cell_at r "ISO_TIME")) ye) timed = [].
Proof.
  induction 1 as [|r l (t & Ht & Hout) _ (timed & Htimed & Hnone)].
  - exists []. split; reflexivity.
  - exists (<["ISO_TIME" := CTime t]> r :: timed). split.
    + cbn. rewrite Ht. cbn. rewrite Htimed. reflexivity.
    + cbn. unfold cell_at at 1 2. rewrite lookup_insert_eq. cbn.
      rewrite Hout. exact Hnone.
Qed.

(** On a well-formed archive none of whose rows has both the requested
    name and a time in the requested year, the loader returns the empty
    track. *)
Lemma no_match_no_rows name year path flt archive ys ye :
  read_csv path = Ok archive ->
  ibtracs._EXTRACT_VARS ⊆ columns archive ->
  to_datetime (CStr (str_int year)) = Ok ys ->
  to_datetime (CStr (str_int (year + 1))) = Ok ye ->
  Forall (fun r => cell_eq_str (cell_at r "NAME") name = true ->
                   exists t, to_datetime (cell_at r "ISO_TIME") = Ok t
                             /\ dt_ge t ys && dt_lt t ye = false)
         (tail (rows archive)) ->
  ibtracs.get_storm_track read_csv name year path flt =
  Ok {| columns := ibtracs._EXTRACT_VARS ++ ["LON_180"]; rows := [] |}.
Proof.
  intros Hread Hcols Hys Hye Hrows. unfold ibtracs.get_storm_track.
  rewrite Hread. cbn [mbind res_bind]. cbv zeta. rewrite Hys, Hye. cbn [mbind res_bind].
  assert (Hin : forall c, bool_decide (c ∈ ibtracs._EXTRACT_VARS) = true ->
                          c ∈ columns archive).
  { intros c Hc. apply Hcols. apply bool_decide_eq_true in Hc. exact Hc. }
  rewrite where_total by (apply Hin; reflexivity). cbn [mbind res_bind].
  destruct (times_out_of_range ys ye
              (List.filter (fun r => cell_eq_str (cell_at r "NAME") name)
                 (tail (rows archive)))) as (timed & Htimed & Hnone).
  { apply Forall_filter. intros r Hr Hname.
    rewrite Forall_forall in Hrows. apply Hrows; assumption. }
  unfold assign at 3. cbn [columns rows iloc_from_1].
  rewrite bool_decide_eq_true_2 by (apply Hin; reflexivity).
  rewrite Htimed. cbn [mbind res_bind].
  rewrite where_total by (apply Hin; reflexivity). cbn [columns rows].
  rewrite Hnone. cbn [mbind res_bind].
  rewrite select_columns_total by exact Hcols. cbn [columns rows].
  destruct flt; reflexivity.
Qed.

End loader.

(** ** The renderer *)

Section renderer.
Context `{Runtime}.
Import config.

Lemma result_lift {A} (r : res A) : result (lift r) = r.
Proof. reflexivity. Qed.

Lemma result_emit (c : call) : result (emit c) = Ok tt.
Proof. reflexivity. Qed.

Lemma all_of_emit {C} (g : call -> list C) (c : call) : all_of g (emit c) = g c.
Proof. unfold all_of. cbn. apply app_nil_r. Qed.

Lemma quiet_bind {A B C} (g : call -> list C) (m : Draw A) (f : A -> Draw B) :
  all_of g m = [] -> (forall a, all_of g (f a) = []) -> all_of g (m ≫= f) = [].
Proof.
  intros Hm Hf. rewrite all_of_bind, Hm. destruct (result m); cbn; auto.
Qed.

Lemma ring_has_no_annotation x y radii lw ec :
  all_of annotations (plot.draw_wind_radii_arcs x y radii lw ec) = [].
Proof.
  unfold plot.draw_wind_radii_arcs.
  repeat (apply quiet_bind; [|intros]); try reflexivity.
  apply all_of_for. intros [rad theta]. reflexivity.
Qed.

Lemma threshold_has_no_annotation row x y scale pc :
  all_of annotations (plot.draw_threshold row x y scale pc) = [].
Proof.
  destruct pc as [prefix color]. unfold plot.draw_threshold.
  apply quiet_bind; [reflexivity|]. intros [radii|]; [|reflexivity].
  apply ring_has_no_annotation.
Qed.

(** One iteration annotates once, at the row's projected point and on
    the side of the current sign, or raises before annotating. *)
Lemma plot_row_annotation c34 c50 c64 scale sign row :
  let m := plot.plot_row c34 c50 c64 scale sign row in
  match result m with
  | Ok _ => exists text lon lat,
      (v ← getitem row "LON"; to_float v) = Ok lon
      /\ (v ← getitem row "LAT"; to_float v) = Ok lat
      /\ all_of annotations m = [(text, transform_point lon lat, side sign)]
  | Raise _ => all_of annotations m = []
  end.
Proof.
  intros m. subst m. unfold plot.plot_row.
  rewrite result_bind, all_of_bind, result_lift, all_of_lift.
  destruct (getitem row "LON" ≫= _) as [lon|e] eqn:Elon; [|cbn; reflexivity].
  rewrite result_bind, all_of_bind, result_lift, all_of_lift.
  destruct (getitem row "LAT" ≫= _) as [lat|e] eqn:Elat; [|cbn; reflexivity].
  destruct (transform_point lon lat) as [at_x at_y] eqn:Epoint.
  rewrite result_bind, all_of_bind.
  rewrite all_of_for by apply threshold_has_no_annotation.
  destruct (result (for_ _ _)); [|cbn; reflexivity].
  rewrite result_bind, all_of_bind, result_emit.
  rewrite result_bind, all_of_bind, result_lift, all_of_lift.
  destruct (getitem row "ISO_TIME" ≫= _) as [time_str|e]; [|cbn; reflexivity].
  rewrite result_bind, all_of_bind, result_lift, all_of_lift.
  destruct (getitem row "WMO_WIND") as [wind|e]; [|cbn; reflexivity].
  rewrite result_bind, all_of_bind, result_lift, all_of_lift.
  destruct (getitem row "WMO_PRES") as [pres|e]; [|cbn; reflexivity].
  unfold side. destruct (0 <? sign); cbn;
    eexists _, lon, lat; rewrite Epoint; repeat split.
Qed.

Lemma sign_flips (k : nat) :
  (if Nat.even k then 1 else -1) * -1 = if Nat.even (S k) then 1 else -1.
Proof. rewrite Nat.even_succ, <- Nat.negb_even. destruct (Nat.even k); reflexivity. Qed.

Lemma plot_rows_annotations c34 c50 c64 scale (track_rows : list Series) :
  forall (k i : nat) text xy off,
    all_of annotations
      (plot.plot_rows c34 c50 c64 scale (if Nat.even k then 1 else -1) track_rows) !! i
    = Some (text, xy, off) ->
    off = side (if Nat.even (k + i) then 1 else -1)
    /\ exists row lon lat, track_rows !! i = Some row
         /\ (v ← getitem row "LON"; to_float v) = Ok lon
         /\ (v ← getitem row "LAT"; to_float v) = Ok lat
         /\ xy = transform_point lon lat.
Proof.
  induction track_rows as [|row rest IH]; intros k i text xy off Hi; [discriminate|].
  cbn [plot.plot_rows] in Hi. rewrite all_of_bind in Hi.
  pose proof (plot_row_annotation c34 c50 c64 scale (if Nat.even k then 1 else -1) row)
    as Hrow. cbv zeta in Hrow.
  destruct (result (plot.plot_row _ _ _ _ _ row)) as [[]|e].
  - destruct Hrow as (text0 & lon & lat & Hlon & Hlat & Hrow). rewrite Hrow in Hi.
    destruct i as [|i]; cbn in Hi.
    + injection Hi as <- <- <-. rewrite Nat.add_0_r. split; [reflexivity|].
      exists row, lon, lat. auto.
    + rewrite sign_flips in Hi. apply IH in Hi as [Hoff Hxy].
      rewrite Nat.add_succ_r. split; [exact Hoff | exact Hxy].
  - rewrite Hrow in Hi. discriminate.
Qed.

Lemma plot_rows_annotate_every_row c34 c50 c64 scale (track_rows : list Series) :
  forall k : nat,
    let m := plot.plot_rows c34 c50 c64 scale (if Nat.even k then 1 else -1) track_rows in
    result m = Ok tt -> length (all_of annotations m) = length track_rows.
Proof.
  induction track_rows as [|row rest IH]; intros k m Hm; [reflexivity|].
  subst m. cbn [plot.plot_rows] in *. rewrite result_bind in Hm. rewrite all_of_bind.
  pose proof (plot_row_annotation c34 c50 c64 scale (if Nat.even k then 1 else -1) row)
    as Hrow. cbv zeta in Hrow.
  destruct (result (plot.plot_row _ _ _ _ _ row)) as [[]|e]; [|discriminate].
  destruct Hrow as (text0 & lon & lat & _ & _ & ->).
  rewrite sign_flips in *. cbn [app length]. f_equal. exact (IH (S k) Hm).
Qed.

(** The base map: set up whole when cartopy accepts the extent, stopped
    at [set_extent] when it refuses. *)
Lemma setup_map_calls min_lat max_lat min_lon max_lon offset :
  let e := [min_lon - offset; max_lon + offset; min_lat - offset; max_lat + offset]%F in
  plot._setup_map min_lat max_lat min_lon max_lon offset =
  match set_extent e with
  | Ok _ => (base_map e, Ok tt)
  | Raise err =>
      ([ax_add_feature "BORDERS"; ax_add_feature "COASTLINE"; ax_set_extent e],
       Raise err)
  end.
Proof.
  intros e. subst e. unfold plot._setup_map, attempt. cbv zeta.
  destruct (set_extent _) as [[]|err]; reflexivity.
Qed.

Lemma setup_map_quiet {C} (g : call -> list C) min_lat max_lat min_lon max_lon offset :
  (forall f, g (ax_add_feature f) = []) -> (forall e, g (ax_set_extent e) = []) ->
  (forall a b, g (ax_gridlines a b) = []) ->
  all_of g (plot._setup_map min_lat max_lat min_lon max_lon offset) = [].
Proof.
  intros Hfeat Hext Hgrid. rewrite setup_map_calls. cbv zeta.
  destruct (set_extent _) as [[]|err]; unfold all_of, base_map; cbn;
    rewrite !Hfeat, Hext, ?Hgrid; reflexivity.
Qed.

(** The annotations of a whole plot are those of its loop over the rows;
    a plot that raises before the loop has none. *)
Lemma plot_track_annotations track storm_name output_path figsize map_offset
    c34 c50 c64 scale :
  let m := plot.plot_track track storm_name output_path figsize map_offset
             c34 c50 c64 scale in
  let loop := plot.plot_rows c34 c50 c64 scale 1 (rows track) in
  (all_of annotations m = [] /\ result m <> Ok tt)
  \/ (all_of annotations m = all_of annotations loop
      /\ (result m = Ok tt -> result loop = Ok tt)).
Proof.
  intros m loop. subst m loop. unfold plot.plot_track.
  rewrite result_bind, all_of_bind, result_emit, all_of_emit.
  rewrite result_bind, all_of_bind, result_lift, all_of_lift.
  destruct (column_as_float track "LAT") as [lats|e]; [|left; split; [reflexivity|discriminate]].
  rewrite result_bind, all_of_bind, result_lift, all_of_lift.
  destruct (column_as_float track "LON") as [lons|e]; [|left; split; [reflexivity|discriminate]].
  rewrite result_bind, all_of_bind.
  rewrite (setup_map_quiet annotations) by reflexivity.
  destruct (result (plot._setup_map _ _ _ _ _)) as [[]|e];
    [|left; split; [reflexivity|discriminate]].
  cbv zeta. rewrite result_bind, all_of_bind. right. cbn [annotations app].
  destruct (result (plot.plot_rows _ _ _ _ _ _)) as [[]|e].
  - split; [|reflexivity].
    destruct output_path as [path|]; [case_bool_decide|]; cbn; apply app_nil_r.
  - split; [apply app_nil_r | discriminate].
Qed.

End renderer.

(** ** The filter on the official fields *)

Section filter_relation.
Context `{Runtime} (read_csv : string -> res DataFrame).

Lemma map_res_filter {A B} (f : A -> res B) (p : A -> bool) (q : B -> bool)
    (l : list A) (l' : list B) :
  (forall x y, f x = Ok y -> q y = p x) ->
  map_res f l = Ok l' ->
  map_res f (List.filter p l) = Ok (List.filter q l').
Proof.
  intros Hpq. revert l'. induction l as [|x l IH]; intros l' Hl; cbn in Hl.
  - injection Hl as <-. reflexivity.
  - apply bind_ok in Hl as (y & Hy & Hl). apply bind_ok in Hl as (ys & Hys & Hl).
    injection Hl as <-. cbn. rewrite (Hpq x y Hy).
    destruct (p x); cbn; [rewrite Hy; cbn|]; rewrite (IH ys Hys); reflexivity.
Qed.

Lemma filter_filter {A} (p q : A -> bool) (l : list A) :
  List.filter q (List.filter p l) = List.filter (fun x => p x && q x) l.
Proof.
  induction l as [|x l IH]; [reflexivity|]. cbn.
  destruct (p x); cbn; [destruct (q x)|]; rewrite IH; reflexivity.
Qed.

Lemma assign_filter dst src f (p : Series -> bool) df df' :
  (forall r v, p (<[dst := v]> r) = p r) ->
  assign dst src f df = Ok df' ->
  assign dst src f {| columns := columns df; rows := List.filter p (rows df) |}
  = Ok {| columns := columns df'; rows := List.filter p (rows df') |}.
Proof.
  intros Hp. unfold assign. cbn [columns rows].
  case_bool_decide; [|discriminate]. intros Hrun.
  apply bind_ok in Hrun as (rs & Hrs & [= <-]). cbn [columns rows].
  erewrite map_res_filter; [reflexivity| |exact Hrs].
  cbn. intros r r' Hr. apply bind_ok in Hr as (v & _ & [= <-]). apply Hp.
Qed.

(** What the filter changes: enabled, the loader returns the rows it
    returns when disabled, less those with a blank official wind or a
    blank official pressure. *)
Lemma filter_removes_exactly_the_blank_rows name year path unfiltered :
  ibtracs.get_storm_track read_csv name year path false = Ok unfiltered ->
  ibtracs.get_storm_track read_csv name year path true =
  Ok {| columns := columns unfiltered;
        rows := List.filter official_fields_given (rows unfiltered) |}.
Proof.
  unfold ibtracs.get_storm_track. intros Hrun.
  apply bind_ok in Hrun as (archive & -> & Hrun). cbv zeta in *. cbn [mbind res_bind].
  apply bind_ok in Hrun as (ys & -> & Hrun). cbn [mbind res_bind].
  apply bind_ok in Hrun as (ye & -> & Hrun). cbn [mbind res_bind].
  apply bind_ok in Hrun as (named & -> & Hrun). cbn [mbind res_bind].
  apply bind_ok in Hrun as (timed & -> & Hrun). cbn [mbind res_bind].
  apply bind_ok in Hrun as (inyear & -> & Hrun). cbn [mbind res_bind].
  apply bind_ok in Hrun as (cols & Hcols & Hrun). rewrite Hcols. cbn [mbind res_bind].
  apply select_columns_ok in Hcols as [Hcolumns _].
  apply bind_ok in Hrun as (kept & [= <-] & Hrun).
  apply bind_ok in Hrun as (both & Hboth & Hrun).
  assert (Hin : forall c, bool_decide (c ∈ ibtracs._EXTRACT_VARS) = true ->
                          c ∈ columns cols).
  { intros c Hc. rewrite Hcolumns. apply bool_decide_eq_true in Hc. exact Hc. }
  rewrite where_total by (apply Hin; reflexivity). cbn [mbind res_bind].
  rewrite where_total by (apply Hin; reflexivity). cbn [columns rows mbind res_bind].
  rewrite filter_filter.
  change (List.filter _ (rows cols)) with (List.filter official_fields_given (rows cols)).
  assert (Hkeep : forall dst, dst ≠ "WMO_WIND" -> dst ≠ "WMO_PRES" ->
            forall (r : Series) v,
              official_fields_given (<[dst := v]> r) = official_fields_given r).
  { intros dst Hw Hp r v. unfold official_fields_given, cell_at.
    rewrite !lookup_insert_ne by assumption. reflexivity. }
  rewrite (assign_filter _ _ _ official_fields_given cols both
             (Hkeep "LON_180" ltac:(discriminate) ltac:(discriminate)) Hboth).
  cbn [mbind res_bind].
  apply (assign_filter _ _ _ official_fields_given both unfiltered
           (Hkeep "LON" ltac:(discriminate) ltac:(discriminate)) Hrun).
Qed.
End filter_relation.

(** ** The claims on the loader, the renderer and the command line *)

(** C5.  The loader with the filter enabled on an archive whose official
    wind field was read as a missing value (NaN): the row is returned,
    not dropped. *)
Theorem missing_official_wind_is_kept :
  (fun track => (fun r : Series => (r !! "WMO_WIND", r !! "WMO_PRES")) <$> rows track)
    <$> ibtracs.get_storm_track (H := sample.runtime) sample.files
          "LAURA" 2020 "holes.csv" true
  = Ok [(Some (CFloat NaN), Some (CStr "980"))].
Proof. vm_compute. reflexivity. Qed.

(** On the blank field itself the filter does what C5 says: enabled, the
    rows with a blank official wind or pressure are gone; disabled, they
    are returned. *)
Lemma blank_official_fields_example :
  let winds flt :=
    (fun track => (fun r : Series => r !! "WMO_WIND") <$> rows track)
      <$> ibtracs.get_storm_track (H := sample.runtime) sample.files
            "LAURA" 2020 "mixed.csv" flt in
  winds true = Ok [Some (CStr "120"); Some (CStr "130")]
  /\ winds false = Ok [Some (CStr " "); Some (CStr "120"); Some (CStr "130")].
Proof. split; vm_compute; reflexivity. Qed.

(** C6, as the code has it.  [main] calls the loader with the upper-cased
    name and with the filter enabled exactly when [--no-filter-wmo] was
    not passed and the year is not 2021. *)
Theorem filter_enabled_unless_flag_or_2021 `{Runtime}
    (read_csv : string -> res DataFrame) (args : cli.Namespace) :
  cli.main read_csv args =
    (track ← lift (ibtracs.get_storm_track read_csv
                     (str_upper (cli.name args)) (cli.year args) (cli.ibt_csv args)
                     (negb (cli.no_filter_wmo args) && negb (cli.year args =? 2021)));
     plot.plot_track track (str_upper (cli.name args)) (Some (cli.output_path args))
       config.FIGURE_SIZE (cli.map_offset args)
       (cli.color_r34 args) (cli.color_r50 args) (cli.color_r64 args)
       (cli.radius_scale args))
  /\ (cli.filter_wmo args = true <->
      cli.no_filter_wmo args = false /\ cli.year args <> 2021).
Proof.
  split; [reflexivity|]. unfold cli.filter_wmo.
  rewrite andb_true_iff, !negb_true_iff, Z.eqb_neq. reflexivity.
Qed.

(** C6, as the specification words it, fails: for the year 2021 without
    [--no-filter-wmo] the loader is called with the filter disabled, and
    the row with blank official fields is loaded. *)
Lemma filter_disabled_for_2021_without_flag :
  let args := sample.args "ida" 2021 "mixed.csv" false in
  cli.no_filter_wmo args = false
  /\ cli.filter_wmo args = false
  /\ len <$> ibtracs.get_storm_track (H := sample.runtime) sample.files
               (cli.storm_name (H := sample.runtime) args) (cli.year args) (cli.ibt_csv args)
               (cli.filter_wmo args) = Ok 2%nat
  /\ len <$> ibtracs.get_storm_track (H := sample.runtime) sample.files
               (cli.storm_name (H := sample.runtime) args) (cli.year args) (cli.ibt_csv args) true
     = Ok 1%nat.
Proof. repeat split; vm_compute; reflexivity. Qed.

(** C8, as the code has it.  On a well-formed archive in which no row
    has both the requested name and a time in the requested year, the
    loader returns the empty track without raising.  Plotting that track
    does not yield a map: the bounds computed from the empty track are
    NaN, [set_extent] raises [ValueError] on them, and the plot ends
    there, after the figure and the two map features, with no grid line,
    marker or annotation and nothing saved or shown. *)
Theorem no_match_gives_empty_track `{Runtime} (read_csv : string -> res DataFrame)
    (name : string) (year : Z) (path : string) (flt : bool)
    (archive : DataFrame) (ys ye : datetime)
    (storm_name : string) (output_path : option string) (figsize : Z * Z)
    (map_offset : pyfloat) (c34 c50 c64 : string) (scale : pyfloat) :
  read_csv path = Ok archive ->
  ibtracs._EXTRACT_VARS ⊆ columns archive ->
  to_datetime (CStr (str_int year)) = Ok ys ->
  to_datetime (CStr (str_int (year + 1))) = Ok ye ->
  Forall (fun r => cell_eq_str (cell_at r "NAME") name = true ->
                   exists t, to_datetime (cell_at r "ISO_TIME") = Ok t
                             /\ dt_ge t ys && dt_lt t ye = false)
         (tail (rows archive)) ->
  exists track,
    ibtracs.get_storm_track read_csv name year path flt = Ok track
    /\ rows track = []
    /\ let m := plot.plot_track track storm_name output_path figsize map_offset
                  c34 c50 c64 scale in
       result m = Raise ValueError
       /\ calls m = [plt_figure figsize; ax_add_feature "BORDERS";
                     ax_add_feature "COASTLINE";
                     ax_set_extent [NaN; NaN; NaN; NaN]].
Proof.
  intros Hread Hcols Hys Hye Hrows. eexists. split.
  { apply (no_match_no_rows read_csv name year path flt archive ys ye); assumption. }
  split; [reflexivity|].
  set (track := {| columns := _; rows := [] |}).
  assert (Hlat : column_as_float track "LAT" = Ok []) by (vm_compute; reflexivity).
  assert (Hlon : column_as_float track "LON" = Ok []) by (vm_compute; reflexivity).
  unfold plot.plot_track, plot._setup_map, attempt. rewrite Hlat, Hlon. cbn.
  rewrite set_extent_nan. split; reflexivity.
Qed.

Lemma no_match_gives_empty_track_witness :
  exists track,
    ibtracs.get_storm_track (H := sample.runtime) sample.files
      "LAURA" 2021 "mixed.csv" true = Ok track
    /\ rows track = []
    /\ let m := plot.plot_track (H := sample.runtime) track "LAURA"
                  (Some "LAURA_2021_track.png") config.FIGURE_SIZE config.MAP_OFFSET
                  config.COLOR_R34 config.COLOR_R50 config.COLOR_R64
                  config.RADIUS_SCALE in
       result m = Raise ValueError
       /\ calls m = [plt_figure config.FIGURE_SIZE; ax_add_feature "BORDERS";
                     ax_add_feature "COASTLINE";
                     ax_set_extent [NaN; NaN; NaN; NaN]].
Proof.
  apply (no_match_gives_empty_track (H := sample.runtime) sample.files
           "LAURA" 2021 "mixed.csv" true sample.mixed
           (Timestamp 2021 1 1 0 0 0) (Timestamp 2022 1 1 0 0 0)).
  - reflexivity.
  - intros c Hc. exact Hc.
  - reflexivity.
  - reflexivity.
  - repeat constructor; intros E;
      first [ vm_compute in E; discriminate
            | eexists; split; vm_compute; reflexivity ].
Defined.

(** C8, as the specification words it, fails: rendering does not proceed
    to a blank map.  For a request that matches no row of a well-formed
    archive the loader returns the empty track, and the command line then
    raises [ValueError] when it asks for the extent of the map, whose
    bounds come from the track; no grid line is drawn and nothing is
    saved or shown. *)
Lemma empty_track_is_not_plotted :
  let args := sample.args "nobody" 2020 "mixed.csv" false in
  let nobody := cli.main (H := sample.runtime) sample.files args in
  len <$> ibtracs.get_storm_track (H := sample.runtime) sample.files
            (cli.storm_name (H := sample.runtime) args) (cli.year args) (cli.ibt_csv args)
            (cli.filter_wmo args) = Ok 0%nat
  /\ result nobody = Raise ValueError
  /\ calls nobody = [plt_figure config.FIGURE_SIZE; ax_add_feature "BORDERS";
                     ax_add_feature "COASTLINE";
                     ax_set_extent [NaN; NaN; NaN; NaN]]
  /\ all_of outputs nobody = [].
Proof. repeat split; vm_compute; reflexivity. Qed.

(** C9.  In [plot_track] the [i]-th annotation is anchored at the
    projected point of row [i] and is offset to the positive side when
    [i] is even and to the negative side when [i] is odd, whatever the
    rows hold. *)
Theorem annotation_side_alternates `{Runtime} (track : DataFrame)
    (storm_name : string) (output_path : option string) (figsize : Z * Z)
    (map_offset : pyfloat) (c34 c50 c64 : string) (scale : pyfloat)
    (i : nat) (text : string) (xy : point) (off : Z * Z) :
  all_of annotations
    (plot.plot_track track storm_name output_path figsize map_offset c34 c50 c64 scale)
    !! i = Some (text, xy, off) ->
  off = (if Nat.even i then config.ANNOTATION_OFFSET_POS
         else config.ANNOTATION_OFFSET_NEG)
  /\ exists row lon lat, rows track !! i = Some row
       /\ (v ← getitem row "LON"; to_float v) = Ok lon
       /\ (v ← getitem row "LAT"; to_float v) = Ok lat
       /\ xy = transform_point lon lat.
Proof.
  intros Hi.
  destruct (plot_track_annotations track storm_name output_path figsize map_offset
              c34 c50 c64 scale) as [[Hnone _]|[Hloop _]]; cbv zeta in *.
  - rewrite Hnone in Hi. discriminate.
  - rewrite Hloop in Hi.
    apply (plot_rows_annotations c34 c50 c64 scale (rows track) 0%nat) in Hi
      as [Hoff Hrow].
    split; [|exact Hrow]. rewrite Hoff. cbn [Nat.add].
    destruct (Nat.even i); reflexivity.
Qed.

Lemma annotation_side_alternates_witness :
  (-280, -5) = (if Nat.even 1 then config.ANNOTATION_OFFSET_POS
                else config.ANNOTATION_OFFSET_NEG)
  /\ exists row lon lat, rows ida_2021 !! 1%nat = Some row
       /\ (v ← getitem row "LON"; to_float (H := sample.runtime) v) = Ok lon
       /\ (v ← getitem row "LAT"; to_float (H := sample.runtime) v) = Ok lat
       /\ (Fin 279.8, Fin 18.3) = transform_point (Runtime := sample.runtime) lon lat.
Proof.
  apply (annotation_side_alternates (H := sample.runtime) ida_2021 "IDA"
           (Some "IDA_2021_track.png") config.FIGURE_SIZE config.MAP_OFFSET
           config.COLOR_R34 config.COLOR_R50 config.COLOR_R64 config.RADIUS_SCALE
           1%nat "26/18Z, 35 KTS, 1004 hPa").
  vm_compute. reflexivity.
Defined.

(** A plot that completes has annotated every row. *)
Lemma every_row_is_annotated `{Runtime} (track : DataFrame)
    (storm_name : string) (output_path : option string) (figsize : Z * Z)
    (map_offset : pyfloat) (c34 c50 c64 : string) (scale : pyfloat) :
  let m := plot.plot_track track storm_name output_path figsize map_offset
             c34 c50 c64 scale in
  result m = Ok tt -> length (all_of annotations m) = len track.
Proof.
  intros m Hm. subst m.
  destruct (plot_track_annotations track storm_name output_path figsize map_offset
              c34 c50 c64 scale) as [[_ Hraise]|[Hloop Hok]]; cbv zeta in *.
  - contradiction.
  - rewrite Hloop.
    apply (plot_rows_annotate_every_row c34 c50 c64 scale (rows track) 0%nat).
    apply Hok, Hm.
Qed.

(** ** The scenario of the specification, evaluated

    One storm TESTSTORM in 2020 with one row at longitude -40.0, latitude
    20.0, official wind 50, official pressure 980 and 34-kt radii
    50, 60, 40, 55 for SE, NE, SW, NW. *)

Example teststorm_is_loaded :
  (fun r : Series => (r !! "LON_180", r !! "LON"))
    <$> rows (loaded (ibtracs.get_storm_track (H := sample.runtime) sample.files
                        "TESTSTORM" 2020 "teststorm.csv" true))
  = [(Some (CStr "-40.0"), Some (CFloat (Fin 320.0)))].
Proof. vm_compute. reflexivity. Qed.

Example teststorm_radii :
  (fun r => plot._parse_radii r "USA_R34" config.RADIUS_SCALE)
    <$> rows (loaded (ibtracs.get_storm_track (H := sample.runtime) sample.files
                        "TESTSTORM" 2020 "teststorm.csv" true))
  = [Ok (Some [Fin (50 # 70); Fin (60 # 70); Fin (40 # 70); Fin (55 # 70)])].
Proof. vm_compute. reflexivity. Qed.

Example teststorm_is_drawn :
  let m := cli.main (H := sample.runtime) sample.files
             (sample.args "TESTSTORM" 2020 "teststorm.csv" false) in
  result m = Ok tt
  /\ length (all_of markers m) = 1%nat
  /\ length (all_of arcs m) = 4%nat
  /\ length (all_of segments m) = 4%nat
  /\ (fun a => (a.1.1, a.2)) <$> all_of annotations m
     = [("26/12Z, 50 KTS, 980 hPa", config.ANNOTATION_OFFSET_POS)].
Proof. repeat split; vm_compute; reflexivity. Qed.

(** The scale divisor must not be zero: dividing the radii by a zero
    scale raises. *)
Example zero_scale_raises :
  (fun r => plot._parse_radii r "USA_R34" (Fin 0))
    <$> rows (loaded (ibtracs.get_storm_track (H := sample.runtime) sample.files
                        "TESTSTORM" 2020 "teststorm.csv" true))
  = [Raise ZeroDivisionError].
Proof. vm_compute. reflexivity. Qed.

(** * Further properties of the code *)

(** ** The loader, step by step *)

Section loader_steps.
Context `{Runtime} (read_csv : string -> res DataFrame).

(** A successful load went through each stage of [get_storm_track]. *)
Lemma get_storm_track_steps name year path flt track :
  ibtracs.get_storm_track read_csv name year path flt = Ok track ->
  exists archive ys ye named timed inyear cols kept both,
    read_csv path = Ok archive
    /\ to_datetime (CStr (str_int year)) = Ok ys
    /\ to_datetime (CStr (str_int (year + 1))) = Ok ye
    /\ where_ "NAME" (fun v => cell_eq_str v name) (iloc_from_1 archive) = Ok named
    /\ assign "ISO_TIME" "ISO_TIME" (fun v => CTime <$> to_datetime v) named = Ok timed
    /\ where_ "ISO_TIME"
         (fun v => dt_ge (cell_time v) ys && dt_lt (cell_time v) ye) timed = Ok inyear
    /\ select_columns ibtracs._EXTRACT_VARS inyear = Ok cols
    /\ (if flt
        then data ← where_ "WMO_WIND" (fun v => negb (cell_eq_str v " ")) cols;
             where_ "WMO_PRES" (fun v => negb (cell_eq_str v " ")) data
        else Ok cols) = Ok kept
    /\ assign "LON_180" "LON" Ok kept = Ok both
    /\ assign "LON" "LON"
         (fun v => f ← to_float v; Ok (CFloat (ibtracs._lon_to_360 f))) both = Ok track.
Proof.
  unfold ibtracs.get_storm_track. intros Hrun.
  apply bind_ok in Hrun as (archive & Hread & Hrun). cbv zeta in Hrun.
  apply bind_ok in Hrun as (ys & Hys & Hrun).
  apply bind_ok in Hrun as (ye & Hye & Hrun).
  apply bind_ok in Hrun as (named & Hnamed & Hrun).
  apply bind_ok in Hrun as (timed & Htimed & Hrun).
  apply bind_ok in Hrun as (inyear & Hinyear & Hrun).
  apply bind_ok in Hrun as (cols & Hcols & Hrun).
  apply bind_ok in Hrun as (kept & Hkept & Hrun).
  apply bind_ok in Hrun as (both & Hboth & Hrun).
  exists archive, ys, ye, named, timed, inyear, cols, kept, both. auto 12.
Qed.

Lemma kept_rows (flt : bool) cols kept (P : Series -> Prop) :
  (if flt
   then data ← where_ "WMO_WIND" (fun v => negb (cell_eq_str v " ")) cols;
        where_ "WMO_PRES" (fun v => negb (cell_eq_str v " ")) data
   else Ok cols) = Ok kept ->
  every_row P cols -> every_row P kept.
Proof.
  destruct flt.
  - intros Hk HP. apply bind_ok in Hk as (wind & Hwind & Hpres).
    eapply every_row_where; [exact Hpres|]. eapply every_row_where; eauto.
  - intros [= <-]. auto.
Qed.

Lemma kept_columns (flt : bool) cols kept :
  (if flt
   then data ← where_ "WMO_WIND" (fun v => negb (cell_eq_str v " ")) cols;
        where_ "WMO_PRES" (fun v => negb (cell_eq_str v " ")) data
   else Ok cols) = Ok kept ->
  columns kept = columns cols.
Proof.
  destruct flt.
  - intros Hk. apply bind_ok in Hk as (wind & Hwind & Hpres).
    apply where_ok in Hwind as [Hw _]. apply where_ok in Hpres as [Hp _]. congruence.
  - intros [= <-]. reflexivity.
Qed.

Lemma assign_columns dst src f df df' :
  assign dst src f df = Ok df' ->
  src ∈ columns df
  /\ columns df' = if bool_decide (dst ∈ columns df) then columns df
                   else columns df ++ [dst].
Proof.
  unfold assign. case_bool_decide as Hsrc; [|discriminate]. intros Hrun.
  apply bind_ok in Hrun as (rs & _ & [= <-]). split; [exact Hsrc | reflexivity].
Qed.

Lemma select_columns_present cols df df' :
  select_columns cols df = Ok df' -> cols ⊆ columns df.
Proof.
  unfold select_columns. destruct (find _ cols) eqn:Hfind; [discriminate|].
  intros _ c Hc. apply list_elem_of_In in Hc.
  pose proof (find_none _ _ Hfind c Hc) as Hin. cbn in Hin.
  apply negb_false_iff, bool_decide_eq_true in Hin. exact Hin.
Qed.

Lemma in_extract_vars (c : string) :
  bool_decide (c ∈ ibtracs._EXTRACT_VARS) = true -> c ∈ ibtracs._EXTRACT_VARS.
Proof. apply bool_decide_eq_true. Qed.

(** X1.  Every row the loader returns has a real timestamp (not NaT)
    that lies in the requested year: at or after the start of [year] and
    before the start of [year + 1]. *)
Theorem returned_times_lie_in_the_year name year path flt track ys ye :
  ibtracs.get_storm_track read_csv name year path flt = Ok track ->
  to_datetime (CStr (str_int year)) = Ok ys ->
  to_datetime (CStr (str_int (year + 1))) = Ok ye ->
  every_row (fun r => exists t, r !! "ISO_TIME" = Some (CTime t)
                                /\ t <> NaT
                                /\ dt_ge t ys = true /\ dt_lt t ye = true) track.
Proof.
  intros Hrun Hys Hye.
  apply get_storm_track_steps in Hrun
    as (archive & ys' & ye' & named & timed & inyear & cols & kept & both
        & _ & Hys' & Hye' & _ & _ & Hinyear & Hcols & Hkept & Hboth & Hrun).
  assert (ys' = ys) as -> by congruence. assert (ye' = ye) as -> by congruence.
  set (P := fun r : Series => exists t, r !! "ISO_TIME" = Some (CTime t)
                                /\ t <> NaT
                                /\ dt_ge t ys = true /\ dt_lt t ye = true).
  assert (Hins : forall dst, dst ≠ "ISO_TIME" -> forall (r : Series) v,
             P r -> P (<[dst := v]> r)).
  { intros dst Hne r v (t & Ht & Hrest). exists t.
    rewrite lookup_insert_ne by exact Hne. auto. }
  eapply every_row_assign; [exact Hrun|apply Hins; discriminate|].
  eapply every_row_assign; [exact Hboth|apply Hins; discriminate|].
  eapply kept_rows; [exact Hkept|].
  eapply every_row_select; [exact Hcols| |].
  { intros r (t & Ht & Hrest). exists t. split; [|exact Hrest].
    apply extract_var_kept; [apply in_extract_vars; reflexivity | exact Ht]. }
  eapply every_row_where_new; [exact Hinyear|].
  intros r Hr. apply andb_true_iff in Hr as [Hge Hlt].
  unfold cell_at in *.
  destruct (r !! "ISO_TIME") as [[| | |[|y mo d h mi s]]|] eqn:Er; try discriminate.
  exists (Timestamp y mo d h mi s).
  split; [exact Er|]. split; [discriminate|]. split; assumption.
Qed.

Lemma every_row_select_new (P : Series -> Prop) cols df df' :
  select_columns cols df = Ok df' ->
  (forall r : Series, P (filter (fun kv => kv.1 ∈ cols) r)) ->
  every_row P df'.
Proof.
  intros Hs HP. apply select_columns_ok in Hs as [_ Hrows].
  unfold every_row. rewrite Hrows. apply Forall_fmap, Forall_forall. intros r _. apply HP.
Qed.

Lemma returned_columns name year path flt track :
  ibtracs.get_storm_track read_csv name year path flt = Ok track ->
  columns track = ibtracs._EXTRACT_VARS ++ ["LON_180"].
Proof.
  intros Hrun.
  apply get_storm_track_steps in Hrun
    as (archive & ys & ye & named & timed & inyear & cols & kept & both
        & _ & _ & _ & _ & _ & _ & Hcols & Hkept & Hboth & Hrun).
  apply select_columns_ok in Hcols as [Hcols _].
  apply kept_columns in Hkept. rewrite Hcols in Hkept.
  apply assign_columns in Hboth as [_ Hboth]. rewrite Hkept in Hboth.
  apply assign_columns in Hrun as [_ Hrun]. rewrite Hboth in Hrun.
  rewrite Hrun. vm_compute. reflexivity.
Qed.

(** X2.  A returned frame has exactly the extracted columns followed by
    LON_180, and its rows hold no field outside these columns. *)
Theorem returned_frame_has_the_extracted_columns name year path flt track :
  ibtracs.get_storm_track read_csv name year path flt = Ok track ->
  columns track = ibtracs._EXTRACT_VARS ++ ["LON_180"]
  /\ every_row (fun r => forall c, is_Some (r !! c) -> c ∈ columns track) track.
Proof.
  intros Hrun. pose proof (returned_columns _ _ _ _ _ Hrun) as Hcolumns.
  split; [exact Hcolumns|]. rewrite Hcolumns.
  apply get_storm_track_steps in Hrun
    as (archive & ys & ye & named & timed & inyear & cols & kept & both
        & _ & _ & _ & _ & _ & _ & Hcols & Hkept & Hboth & Hrun).
  set (P := fun r : Series =>
              forall c, is_Some (r !! c) -> c ∈ ibtracs._EXTRACT_VARS ++ ["LON_180"]).
  assert (Hins : forall dst, dst ∈ ibtracs._EXTRACT_VARS ++ ["LON_180"] ->
             forall (r : Series) v, P r -> P (<[dst := v]> r)).
  { intros dst Hdst r v Hr c Hc. destruct (decide (dst = c)) as [<-|Hne]; [exact Hdst|].
    rewrite lookup_insert_ne in Hc by exact Hne. apply Hr, Hc. }
  eapply every_row_assign; [exact Hrun| |].
  { apply Hins. apply (bool_decide_unpack _). vm_compute. exact I. }
  eapply every_row_assign; [exact Hboth| |].
  { apply Hins. apply (bool_decide_unpack _). vm_compute. exact I. }
  eapply kept_rows; [exact Hkept|].
  eapply every_row_select_new; [exact Hcols|].
  intros r c [v Hv]. apply map_lookup_filter_Some in Hv as [_ Hc].
  apply elem_of_app. left. exact Hc.
Qed.

Lemma loaded_archive_has_the_columns name year path flt archive track :
  read_csv path = Ok archive ->
  ibtracs.get_storm_track read_csv name year path flt = Ok track ->
  ibtracs._EXTRACT_VARS ⊆ columns archive.
Proof.
  intros Hread Hrun.
  apply get_storm_track_steps in Hrun
    as (archive' & ys & ye & named & timed & inyear & cols & kept & both
        & Hread' & _ & _ & Hnamed & Htimed & Hinyear & Hcols & _).
  assert (archive' = archive) as -> by congruence.
  apply select_columns_present in Hcols.
  apply where_ok in Hinyear as [Hc3 _]. apply assign_columns in Htimed as [Hsrc Hc2].
  apply where_ok in Hnamed as [Hc1 _].
  rewrite bool_decide_eq_true_2 in Hc2 by exact Hsrc.
  rewrite Hc3, Hc2, Hc1 in Hcols. exact Hcols.
Qed.

(** X5.  The loader returns a track only if the archive has every one of
    the extracted columns. *)
Theorem load_needs_every_extracted_column name year path flt archive track :
  read_csv path = Ok archive ->
  ibtracs.get_storm_track read_csv name year path flt = Ok track ->
  ibtracs._EXTRACT_VARS ⊆ columns archive.
Proof. apply loaded_archive_has_the_columns. Qed.

Lemma Forall2_sublist_r {A B} (R : A -> B -> Prop) (l : list A) (l' k' : list B) :
  Forall2 R l l' -> k' `sublist_of` l' ->
  exists k, k `sublist_of` l /\ Forall2 R k k'.
Proof.
  intros HR. revert k'. induction HR as [|x y l l' Hxy _ IH]; intros k' Hs.
  - apply sublist_nil_r in Hs as ->. exists []. split; constructor.
  - apply sublist_cons_r in Hs as [Hs|(k'' & -> & Hs)].
    + destruct (IH _ Hs) as (k & Hk & HRk). exists k. split; [|exact HRk].
      apply sublist_cons_r. left. exact Hk.
    + destruct (IH _ Hs) as (k & Hk & HRk). exists (x :: k). split.
      * apply sublist_skip. exact Hk.
      * constructor; assumption.
Qed.

Lemma filter_sublist {A} (p : A -> bool) (l : list A) : List.filter p l `sublist_of` l.
Proof.
  induction l as [|x l IH]; cbn; [constructor|].
  destruct (p x); [apply sublist_skip | apply sublist_cons]; exact IH.
Qed.

Lemma traced_where base c p df df' :
  where_ c p df = Ok df' -> traced base df -> traced base df'.
Proof.
  intros Hw (k & Hk & HT). apply where_ok in Hw as [_ Hrows].
  destruct (Forall2_sublist_r _ _ _ (rows df') HT) as (k' & Hk' & HT').
  { rewrite Hrows. apply filter_sublist. }
  exists k'. split; [|exact HT']. etransitivity; eassumption.
Qed.

Lemma traced_assign base dst src f df df' :
  (dst ∈ ibtracs._EXTRACT_VARS -> dst = "ISO_TIME" \/ dst = "LON") ->
  assign dst src f df = Ok df' -> traced base df -> traced base df'.
Proof.
  intros Hdst Ha (k & Hk & HT). apply assign_ok in Ha.
  exists k. split; [exact Hk|]. clear Hk.
  revert Ha. generalize (rows df'). induction HT as [|r0 r k l Hr _ IH]; intros l' Ha.
  - inversion Ha. constructor.
  - inversion Ha as [|? r' ? l'' (v & _ & ->) Hl]; subst. constructor; [|apply IH, Hl].
    intros c Hc Ht Hl'. rewrite lookup_insert_ne; [apply Hr; assumption|].
    intros ->. destruct (Hdst Hc); contradiction.
Qed.

Lemma traced_select base df df' :
  select_columns ibtracs._EXTRACT_VARS df = Ok df' -> traced base df -> traced base df'.
Proof.
  intros Hs (k & Hk & HT). apply select_columns_ok in Hs as [_ Hrows].
  exists k. split; [exact Hk|]. rewrite Hrows. apply Forall2_fmap_r.
  eapply Forall2_impl; [exact HT|]. cbn. intros r0 r Hr c Hc Ht Hl.
  rewrite <- (Hr c Hc Ht Hl).
  destruct (r !! c) as [v|] eqn:Ev.
  - apply extract_var_kept; assumption.
  - apply map_lookup_filter_None. left. exact Ev.
Qed.

(** X6.  The returned rows come from rows of the archive after its first
    one, in the archive's order, and every extracted field other than the
    time and the longitude is passed through unchanged. *)
Theorem rows_keep_their_order_and_fields name year path flt archive track :
  read_csv path = Ok archive ->
  ibtracs.get_storm_track read_csv name year path flt = Ok track ->
  exists kept,
    kept `sublist_of` tail (rows archive)
    /\ Forall2 passed_through kept (rows track).
Proof.
  intros Hread Hrun.
  apply get_storm_track_steps in Hrun
    as (archive' & ys & ye & named & timed & inyear & cols & kept & both
        & Hread' & _ & _ & Hnamed & Htimed & Hinyear & Hcols & Hkept & Hboth & Hrun).
  assert (archive' = archive) as -> by congruence.
  change (traced (tail (rows archive)) track).
  eapply traced_assign; [|exact Hrun|]; [auto|].
  eapply traced_assign; [|exact Hboth|].
  { intros Hin. apply (bool_decide_pack _) in Hin. vm_compute in Hin. contradiction. }
  assert (Hc : traced (tail (rows archive)) cols).
  { eapply traced_select; [exact Hcols|].
    eapply traced_where; [exact Hinyear|].
    eapply traced_assign; [|exact Htimed|]; [auto|].
    eapply traced_where; [exact Hnamed|].
    exists (tail (rows archive)). split; [reflexivity|].
    apply Forall2_same_length_lookup_2; [reflexivity|].
    intros i r r' Hr Hr'. cbn in Hr'. assert (r = r') as -> by congruence.
    intros c _ _ _. reflexivity. }
  destruct flt.
  - apply bind_ok in Hkept as (wind & Hwind & Hpres).
    eapply traced_where; [exact Hpres|]. eapply traced_where; [exact Hwind|]. exact Hc.
  - injection Hkept as <-. exact Hc.
Qed.

End loader_steps.

(** ** The rows a load selects *)

Section selection.
Context `{Runtime} (read_csv : string -> res DataFrame).

Lemma Forall2_filter_both {A B} (R : A -> B -> Prop) (p : A -> bool) (q : B -> bool)
    (l : list A) (k : list B) :
  (forall x y, R x y -> q y = p x) -> Forall2 R l k ->
  Forall2 R (List.filter p l) (List.filter q k).
Proof.
  intros Hpq HR. induction HR as [|x y l k Hxy _ IH]; cbn; [constructor|].
  rewrite (Hpq x y Hxy). destruct (p x); [constructor|]; assumption.
Qed.

Lemma Forall2_compose {A B C} (R : A -> B -> Prop) (S : B -> C -> Prop)
    (T : A -> C -> Prop) (l : list A) (k : list B) (m : list C) :
  (forall x y z, R x y -> S y z -> T x z) ->
  Forall2 R l k -> Forall2 S k m -> Forall2 T l m.
Proof.
  intros HT HR. revert m. induction HR as [|x y l k Hxy _ IH]; intros m HS.
  - inversion HS. constructor.
  - inversion HS as [|? z ? m' Hyz HS']; subst. constructor; eauto.
Qed.

Lemma Forall2_chain {A B C} (R : A -> B -> Prop) (S : B -> C -> Prop)
    (l : list A) (k : list B) (m : list C) :
  Forall2 R l k -> Forall2 S k m ->
  Forall2 (fun x z => exists y, R x y /\ S y z) l m.
Proof. apply Forall2_compose. eauto. Qed.

(** An extracted field other than the time, after the time was parsed
    and the extracted columns were selected, is the archive's. *)
Lemma projected_field (r : Series) (v : cell) (c : string) :
  c ∈ ibtracs._EXTRACT_VARS -> c <> "ISO_TIME" ->
  (filter (fun kv => kv.1 ∈ ibtracs._EXTRACT_VARS) (<["ISO_TIME" := v]> r) : Series) !! c
  = r !! c.
Proof.
  intros Hc Hne. apply option_eq. intros w.
  rewrite map_lookup_filter_Some, lookup_insert_ne by congruence. cbn. tauto.
Qed.

Lemma projected_time (r : Series) (v : cell) :
  (filter (fun kv => kv.1 ∈ ibtracs._EXTRACT_VARS) (<["ISO_TIME" := v]> r) : Series)
    !! "ISO_TIME" = Some v.
Proof.
  apply map_lookup_filter_Some. rewrite lookup_insert_eq. split; [reflexivity|].
  cbn. apply in_extract_vars. reflexivity.
Qed.

(** The rows left after the columns are selected: the archive rows with
    the name and a time in the year, each with its time parsed. *)
Lemma selected_rows name ys ye archive named timed inyear cols :
  where_ "NAME" (fun v => cell_eq_str v name) (iloc_from_1 archive) = Ok named ->
  assign "ISO_TIME" "ISO_TIME" (fun v => CTime <$> to_datetime v) named = Ok timed ->
  where_ "ISO_TIME"
    (fun v => dt_ge (cell_time v) ys && dt_lt (cell_time v) ye) timed = Ok inyear ->
  select_columns ibtracs._EXTRACT_VARS inyear = Ok cols ->
  Forall2 (fun r r' : Series => exists t,
             to_datetime (cell_at r "ISO_TIME") = Ok t
             /\ r' = filter (fun kv => kv.1 ∈ ibtracs._EXTRACT_VARS)
                       (<["ISO_TIME" := CTime t]> r))
    (List.filter (selects name ys ye false) (tail (rows archive))) (rows cols).
Proof.
  intros Hnamed Htimed Hinyear Hcols.
  apply where_ok in Hnamed as [_ Hnamed]. apply assign_ok in Htimed.
  apply where_ok in Hinyear as [_ Hinyear].
  apply select_columns_ok in Hcols as [_ Hcols].
  rewrite Hcols, Hinyear. apply Forall2_fmap_r.
  rewrite Hnamed in Htimed. cbn [rows iloc_from_1] in Htimed.
  set (intime := fun r : Series =>
         match to_datetime (cell_at r "ISO_TIME") with
         | Ok t => dt_ge t ys && dt_lt t ye
         | Raise _ => false
         end).
  assert (Hsel : List.filter (selects name ys ye false) (tail (rows archive))
                 = List.filter intime
                     (List.filter (fun r => cell_eq_str (cell_at r "NAME") name)
                        (tail (rows archive)))).
  { rewrite filter_filter. apply filter_ext. intros r. unfold selects, intime.
    cbn. rewrite andb_true_r. reflexivity. }
  rewrite Hsel.
  eapply Forall2_impl.
  - apply (Forall2_filter_both
             (fun r r' : Series => exists t, to_datetime (cell_at r "ISO_TIME") = Ok t
                                   /\ r' = <["ISO_TIME" := CTime t]> r)
             intime); [|eapply Forall2_impl; [exact Htimed|]].
    + intros r r' (t & Ht & ->). unfold intime, cell_at at 1 2.
      rewrite Ht, lookup_insert_eq. reflexivity.
    + cbn. intros r r' (v & Hv & ->).
      destruct (to_datetime (cell_at r "ISO_TIME")) as [t|e]; [|discriminate].
      injection Hv as <-. eauto.
  - cbn. intros r r' (t & Ht & ->). eauto.
Qed.

Lemma projected_official (r : Series) (t : datetime) :
  official_fields_given
    (filter (fun kv => kv.1 ∈ ibtracs._EXTRACT_VARS) (<["ISO_TIME" := CTime t]> r))
  = official_fields_given r.
Proof.
  unfold official_fields_given, cell_at.
  rewrite !projected_field by (first [apply in_extract_vars; reflexivity | discriminate]).
  reflexivity.
Qed.

(** The same after the filter on the official fields. *)
Lemma kept_rows_selected name ys ye (flt : bool) archive cols kept :
  Forall2 (fun r r' : Series => exists t,
             to_datetime (cell_at r "ISO_TIME") = Ok t
             /\ r' = filter (fun kv => kv.1 ∈ ibtracs._EXTRACT_VARS)
                       (<["ISO_TIME" := CTime t]> r))
    (List.filter (selects name ys ye false) (tail (rows archive))) (rows cols) ->
  (if flt
   then data ← where_ "WMO_WIND" (fun v => negb (cell_eq_str v " ")) cols;
        where_ "WMO_PRES" (fun v => negb (cell_eq_str v " ")) data
   else Ok cols) = Ok kept ->
  Forall2 (fun r r' : Series => exists t,
             to_datetime (cell_at r "ISO_TIME") = Ok t
             /\ r' = filter (fun kv => kv.1 ∈ ibtracs._EXTRACT_VARS)
                       (<["ISO_TIME" := CTime t]> r))
    (List.filter (selects name ys ye flt) (tail (rows archive))) (rows kept).
Proof.
  intros Hcols Hkept. destruct flt; [|injection Hkept as <-; exact Hcols].
  apply bind_ok in Hkept as (wind & Hwind & Hpres).
  apply where_ok in Hwind as [_ Hwind]. apply where_ok in Hpres as [_ Hpres].
  rewrite Hpres, Hwind, filter_filter.
  change (List.filter _ (rows cols)) with (List.filter official_fields_given (rows cols)).
  assert (Hsel : List.filter (selects name ys ye true) (tail (rows archive))
                 = List.filter official_fields_given
                     (List.filter (selects name ys ye false) (tail (rows archive)))).
  { rewrite filter_filter. apply filter_ext. intros r. unfold selects. cbn.
    rewrite andb_true_r. reflexivity. }
  rewrite Hsel. apply Forall2_filter_both; [|exact Hcols].
  intros r r' (t & _ & ->). apply projected_official.
Qed.

(** The rows a load returns are the archive rows it selects, in the
    archive's order, each loaded as [loads_to] says. *)
Lemma loaded_rows name year path flt archive track ys ye :
  read_csv path = Ok archive ->
  to_datetime (CStr (str_int year)) = Ok ys ->
  to_datetime (CStr (str_int (year + 1))) = Ok ye ->
  ibtracs.get_storm_track read_csv name year path flt = Ok track ->
  Forall2 loads_to (List.filter (selects name ys ye flt) (tail (rows archive)))
          (rows track).
Proof.
  intros Hread Hys Hye Hrun.
  apply get_storm_track_steps in Hrun
    as (archive' & ys' & ye' & named & timed & inyear & cols & kept & both
        & Hread' & Hys' & Hye' & Hnamed & Htimed & Hinyear & Hcols & Hkept
        & Hboth & Hrun).
  assert (archive' = archive) as -> by congruence.
  assert (ys' = ys) as -> by congruence. assert (ye' = ye) as -> by congruence.
  pose proof (kept_rows_selected name ys ye flt archive cols kept
                (selected_rows name ys ye archive named timed inyear cols
                   Hnamed Htimed Hinyear Hcols) Hkept) as Hsel.
  apply assign_ok in Hboth. apply assign_ok in Hrun.
  eapply Forall2_compose; [|exact Hsel|exact (Forall2_chain _ _ _ _ _ Hboth Hrun)].
  cbn. intros r0 r1 r3 (t & Ht & ->) [r2 [(v & [= <-] & ->) (w & Hw & ->)]].
  unfold cell_at in Hw at 1. rewrite lookup_insert_ne in Hw by discriminate.
  fold (cell_at (filter (fun kv => kv.1 ∈ ibtracs._EXTRACT_VARS)
                   (<["ISO_TIME" := CTime t]> r0)) "LON") in Hw.
  assert (Hlon : cell_at (filter (fun kv => kv.1 ∈ ibtracs._EXTRACT_VARS)
                            (<["ISO_TIME" := CTime t]> r0)) "LON" = cell_at r0 "LON").
  { unfold cell_at. rewrite projected_field
      by (first [apply in_extract_vars; reflexivity | discriminate]). reflexivity. }
  rewrite Hlon in *.
  apply bind_ok in Hw as (f & Hf & [= <-]).
  split; [|split; [|split]].
  - intros c Hc Htime Hl. rewrite !lookup_insert_ne.
    + apply projected_field; assumption.
    + intros <-. apply (bool_decide_pack _) in Hc. vm_compute in Hc. contradiction.
    + congruence.
  - exists t. split; [exact Ht|].
    rewrite !lookup_insert_ne by discriminate. apply projected_time.
  - rewrite lookup_insert_ne by discriminate. apply lookup_insert_eq.
  - exists f. split; [exact Hf|]. apply lookup_insert_eq.
Qed.

End selection.

(** X3.  Each returned row, taken with the archive row it was selected
    from, holds under LON_180 the longitude as the archive has it and
    under LON that longitude converted to a float and normalised by
    [_lon_to_360]. *)
Theorem longitude_is_kept_and_normalised `{Runtime} (read_csv : string -> res DataFrame)
    name year path flt archive track ys ye :
  read_csv path = Ok archive ->
  to_datetime (CStr (str_int year)) = Ok ys ->
  to_datetime (CStr (str_int (year + 1))) = Ok ye ->
  ibtracs.get_storm_track read_csv name year path flt = Ok track ->
  Forall2 longitude_of
    (List.filter (selects name ys ye flt) (tail (rows archive))) (rows track).
Proof.
  intros Hread Hys Hye Hrun.
  eapply Forall2_impl; [eapply loaded_rows; eassumption|].
  intros r r' (_ & _ & Hlon). exact Hlon.
Qed.

Lemma longitude_is_kept_and_normalised_witness :
  Forall2 (longitude_of (H := sample.runtime))
    (List.filter (selects (H := sample.runtime) "LAURA"
                    (Timestamp 2020 1 1 0 0 0) (Timestamp 2021 1 1 0 0 0) false)
       (tail (rows sample.mixed)))
    (rows laura_2020).
Proof.
  apply (longitude_is_kept_and_normalised (H := sample.runtime) sample.files
           "LAURA" 2020 "mixed.csv" false sample.mixed laura_2020).
  - reflexivity.
  - vm_compute. reflexivity.
  - vm_compute. reflexivity.
  - apply loaded_ok. vm_compute. reflexivity.
Defined.

(** X24.  The loader returns exactly the rows of the archive, after its
    first one, that have the requested name, a time that parses into
    the requested year and, with the filter on, no blank official field:
    as many, in the archive's order, each with its time parsed, its
    longitude kept and normalised and its other extracted fields
    unchanged. *)
Theorem loader_returns_exactly_the_selected_rows `{Runtime}
    (read_csv : string -> res DataFrame) name year path flt archive track ys ye :
  read_csv path = Ok archive ->
  to_datetime (CStr (str_int year)) = Ok ys ->
  to_datetime (CStr (str_int (year + 1))) = Ok ye ->
  ibtracs.get_storm_track read_csv name year path flt = Ok track ->
  len track = length (List.filter (selects name ys ye flt) (tail (rows archive)))
  /\ Forall2 loads_to
       (List.filter (selects name ys ye flt) (tail (rows archive))) (rows track).
Proof.
  intros Hread Hys Hye Hrun.
  pose proof (loaded_rows read_csv _ _ _ _ _ _ _ _ Hread Hys Hye Hrun) as Hrows.
  split; [|exact Hrows]. symmetry. apply (Forall2_length _ _ _ Hrows).
Qed.

Lemma loader_returns_exactly_the_selected_rows_witness :
  len laura_2020_official
  = length (List.filter (selects (H := sample.runtime) "LAURA"
                           (Timestamp 2020 1 1 0 0 0) (Timestamp 2021 1 1 0 0 0) true)
              (tail (rows sample.mixed)))
  /\ Forall2 (loads_to (H := sample.runtime))
       (List.filter (selects (H := sample.runtime) "LAURA"
                       (Timestamp 2020 1 1 0 0 0) (Timestamp 2021 1 1 0 0 0) true)
          (tail (rows sample.mixed)))
       (rows laura_2020_official).
Proof.
  apply (loader_returns_exactly_the_selected_rows (H := sample.runtime) sample.files
           "LAURA" 2020 "mixed.csv" true sample.mixed laura_2020_official).
  - reflexivity.
  - vm_compute. reflexivity.
  - vm_compute. reflexivity.
  - apply loaded_ok. vm_compute. reflexivity.
Defined.

(** C10.  [main] loads with the upper-cased name and plots the track it
    gets, and the loader matches NAME by exact equality: the track of a
    command line holds exactly the archive rows whose NAME is the
    upper-cased [--name] (with a time in the year, and official fields
    when the filter is on).  So on an archive whose names are upper-case
    a lower-case [--name] selects the upper-case storm, while
    [get_storm_track] called with the lower-case name itself returns the
    empty track. *)
Theorem only_the_cli_upper_cases_the_name `{Runtime}
    (read_csv : string -> res DataFrame) (args : cli.Namespace)
    (archive track : DataFrame) (ys ye : datetime) :
  read_csv (cli.ibt_csv args) = Ok archive ->
  to_datetime (CStr (str_int (cli.year args))) = Ok ys ->
  to_datetime (CStr (str_int (cli.year args + 1))) = Ok ye ->
  ibtracs.get_storm_track read_csv (str_upper (cli.name args)) (cli.year args)
    (cli.ibt_csv args) (cli.filter_wmo args) = Ok track ->
  Forall (fun r : Series => forall s, r !! "NAME" = Some (CStr s) -> str_upper s = s)
         (tail (rows archive)) ->
  str_upper (cli.name args) <> cli.name args ->
  cli.main read_csv args =
    plot.plot_track track (str_upper (cli.name args)) (Some (cli.output_path args))
      config.FIGURE_SIZE (cli.map_offset args)
      (cli.color_r34 args) (cli.color_r50 args) (cli.color_r64 args)
      (cli.radius_scale args)
  /\ Forall2 loads_to
       (List.filter (selects (str_upper (cli.name args)) ys ye (cli.filter_wmo args))
          (tail (rows archive)))
       (rows track)
  /\ (forall flt, exists direct,
        ibtracs.get_storm_track read_csv (cli.name args) (cli.year args)
          (cli.ibt_csv args) flt = Ok direct
        /\ rows direct = []).
Proof.
  intros Hread Hys Hye Hload Hnames Hlower. split; [|split].
  - unfold cli.main, cli.storm_name. rewrite Hload. unfold lift. cbn [mbind draw_bind].
    destruct (plot.plot_track _ _ _ _ _ _ _ _ _) as [out r]. reflexivity.
  - apply (loaded_rows read_csv _ _ _ _ _ _ _ _ Hread Hys Hye Hload).
  - intros flt. eexists. split.
    + apply (no_match_no_rows read_csv _ _ _ flt archive ys ye); try assumption.
      * eapply loaded_archive_has_the_columns; eassumption.
      * eapply Forall_impl; [exact Hnames|]. cbn. intros r Hr Hmatch.
        apply cell_eq_str_lookup in Hmatch. apply Hr in Hmatch. contradiction.
    + reflexivity.
Qed.

Lemma only_the_cli_upper_cases_the_name_witness :
  let args := sample.args "laura" 2020 "mixed.csv" false in
  cli.main (H := sample.runtime) sample.files args =
    plot.plot_track (H := sample.runtime) laura_2020_official
      (str_upper (Runtime := sample.runtime) (cli.name args))
      (Some (cli.output_path (H := sample.runtime) args))
      config.FIGURE_SIZE (cli.map_offset args)
      (cli.color_r34 args) (cli.color_r50 args) (cli.color_r64 args)
      (cli.radius_scale args)
  /\ Forall2 (loads_to (H := sample.runtime))
       (List.filter (selects (H := sample.runtime)
                       (str_upper (Runtime := sample.runtime) (cli.name args))
                       (Timestamp 2020 1 1 0 0 0) (Timestamp 2021 1 1 0 0 0)
                       (cli.filter_wmo args))
          (tail (rows sample.mixed)))
       (rows laura_2020_official)
  /\ (forall flt, exists direct,
        ibtracs.get_storm_track (H := sample.runtime) sample.files
          (cli.name args) (cli.year args) (cli.ibt_csv args) flt = Ok direct
        /\ rows direct = []).
Proof.
  apply (only_the_cli_upper_cases_the_name (H := sample.runtime) sample.files
           (sample.args "laura" 2020 "mixed.csv" false)
           sample.mixed laura_2020_official
           (Timestamp 2020 1 1 0 0 0) (Timestamp 2021 1 1 0 0 0)).
  - reflexivity.
  - vm_compute. reflexivity.
  - vm_compute. reflexivity.
  - apply loaded_ok. vm_compute. reflexivity.
  - repeat constructor; intros s E; vm_compute in E; injection E as <-; reflexivity.
  - vm_compute. discriminate.
Defined.

(** The same request through the command line and through the loader:
    [--name laura] loads the two rows of LAURA that have their official
    fields, the direct call with ["laura"] loads nothing. *)
Lemma lower_case_name_example :
  let args := sample.args "laura" 2020 "mixed.csv" false in
  (fun track => (fun r : Series => r !! "NAME") <$> rows track)
    <$> ibtracs.get_storm_track (H := sample.runtime) sample.files
          (cli.storm_name (H := sample.runtime) args) (cli.year args)
          (cli.ibt_csv args) (cli.filter_wmo args)
  = Ok [Some (CStr "LAURA"); Some (CStr "LAURA")]
  /\ len <$> ibtracs.get_storm_track (H := sample.runtime) sample.files
               "laura" 2020 "mixed.csv" true = Ok 0%nat.
Proof. repeat split; vm_compute; reflexivity. Qed.

(** ** Longitude normalisation, in closed form *)

Section closed_form.
Local Open Scope Q_scope.

Lemma Qfloor_unique (y : Q) (k : Z) :
  inject_Z k <= y -> y < inject_Z k + 1 -> Qfloor y = k.
Proof.
  intros Hlo Hhi.
  pose proof (Qfloor_le y) as Hlo'. pose proof (Qlt_floor y) as Hhi'.
  rewrite inject_Z_plus in Hhi'. change (inject_Z 1) with 1 in Hhi'.
  assert (H1 : inject_Z k < inject_Z (Qfloor y + 1)).
  { rewrite inject_Z_plus. change (inject_Z 1) with 1. lra. }
  assert (H2 : inject_Z (Qfloor y) < inject_Z (k + 1)).
  { rewrite inject_Z_plus. change (inject_Z 1) with 1. lra. }
  rewrite <- Zlt_Qlt in H1, H2. lia.
Qed.

(** [x % m] is the one value of [[0, m)] that differs from [x] by a
    multiple of [m]. *)
Lemma py_mod_unique (x m r : Q) (k : Z) :
  0 < m -> 0 <= r < m -> x == r + m * inject_Z k -> py_mod x m == r.
Proof.
  intros Hm [Hlo Hhi] Hx. unfold py_mod.
  assert (Hq : x / m == r / m + inject_Z k) by (rewrite Hx; field; lra).
  assert (Hf : Qfloor (x / m) = k).
  { apply Qfloor_unique; rewrite Hq.
    - assert (0 <= r / m) by (apply Qle_shift_div_l; lra). lra.
    - assert (r / m < 1) by (apply Qlt_shift_div_r; lra). lra. }
  rewrite Hf, Hx. ring.
Qed.

Lemma lon_360_unique (L r : Q) (k : Z) :
  0 <= r < 360 -> L == r + 360 * inject_Z k ->
  py_mod (360 + py_mod L 360) 360 == r.
Proof.
  intros Hr HL.
  assert (E : py_mod L 360 == r) by (apply (py_mod_unique L 360 r k); [reflexivity|assumption..]).
  apply (py_mod_unique _ 360 r 1); [reflexivity|assumption|].
  rewrite E. change (inject_Z 1) with 1. ring.
Qed.

End closed_form.

(** X10.  Normalising a longitude twice is normalising it once: a
    normalised longitude is left as it is. *)
Theorem lon_to_360_is_idempotent (L : Q) :
  float_eq (ibtracs._lon_to_360 (ibtracs._lon_to_360 (Fin L)))
           (ibtracs._lon_to_360 (Fin L)).
Proof.
  cbn.
  assert (Hr : (0 <= py_mod (360 + py_mod L 360) 360 < 360)%Q)
    by (apply py_mod_bounds; reflexivity).
  apply (lon_360_unique _ _ 0); [exact Hr|].
  change (inject_Z 0) with 0%Q. ring.
Qed.

(** ** Radii and rings *)

(** X11.  When [_parse_radii] returns radii, there are four of them, for
    SE, NE, SW and NW in this order, each the [int] of the row's value
    divided by the scale, and none of the four values is absent. *)
Theorem parsed_radii_are_the_scaled_integers (row : Series) (prefix : string)
    (scale : pyfloat) (radii : list pyfloat) :
  plot._parse_radii row prefix scale = Ok (Some radii) ->
  Forall2 (fun q r => exists v z,
             getitem row (prefix +:+ "_" +:+ q) = Ok v
             /\ absent v = false
             /\ py_int v = Ok z
             /\ fdiv (of_int z) scale = Ok r)
          ["SE"; "NE"; "SW"; "NW"] radii.
Proof.
  intros Hrun.
  destruct (getitem row (prefix +:+ "_" +:+ "SE")) as [se|e] eqn:Hse;
    [|unfold plot._parse_radii in Hrun; cbn [fmap list_fmap map_res] in Hrun;
      rewrite Hse in Hrun; discriminate].
  destruct (getitem row (prefix +:+ "_" +:+ "NE")) as [ne|e] eqn:Hne;
    [|unfold plot._parse_radii in Hrun; cbn [fmap list_fmap map_res] in Hrun;
      rewrite Hse, Hne in Hrun; discriminate].
  destruct (getitem row (prefix +:+ "_" +:+ "SW")) as [sw|e] eqn:Hsw;
    [|unfold plot._parse_radii in Hrun; cbn [fmap list_fmap map_res] in Hrun;
      rewrite Hse, Hne, Hsw in Hrun; discriminate].
  destruct (getitem row (prefix +:+ "_" +:+ "NW")) as [nw|e] eqn:Hnw;
    [|unfold plot._parse_radii in Hrun; cbn [fmap list_fmap map_res] in Hrun;
      rewrite Hse, Hne, Hsw, Hnw in Hrun; discriminate].
  rewrite (parse_radii_cases _ _ _ _ _ _ _ Hse Hne Hsw Hnw) in Hrun.
  destruct (absent se) eqn:Ase; [discriminate|].
  destruct (absent ne) eqn:Ane; [discriminate|].
  destruct (absent sw) eqn:Asw; [discriminate|].
  destruct (absent nw) eqn:Anw; [discriminate|].
  cbn [orb] in Hrun. apply bind_ok in Hrun as (rs & Hrs & [= <-]).
  apply map_res_ok in Hrs.
  inversion Hrs as [|? r0 ? l0 H0 Hrs0]; subst.
  inversion Hrs0 as [|? r1 ? l1 H1 Hrs1]; subst.
  inversion Hrs1 as [|? r2 ? l2 H2 Hrs2]; subst.
  inversion Hrs2 as [|? r3 ? l3 H3 Hrs3]; subst.
  inversion Hrs3; subst.
  apply bind_ok in H0 as (z0 & Hz0 & Hd0). apply bind_ok in H1 as (z1 & Hz1 & Hd1).
  apply bind_ok in H2 as (z2 & Hz2 & Hd2). apply bind_ok in H3 as (z3 & Hz3 & Hd3).
  repeat constructor; eauto 8.
Qed.

Lemma parsed_radii_are_the_scaled_integers_witness :
  Forall2 (fun q r => exists v z,
             getitem (sample.observation "LAURA" "2020-08-26 18:00:00" "120" "940"
                        "27.3" "-92.9"
                        (sample.r34 (CStr "150") (CStr "130") (CStr "60") (CStr "80")))
                     ("USA_R34" +:+ "_" +:+ q) = Ok v
             /\ absent v = false
             /\ py_int v = Ok z
             /\ fdiv (of_int z) config.RADIUS_SCALE = Ok r)
          ["SE"; "NE"; "SW"; "NW"]
          [Fin (150 # 70); Fin (130 # 70); Fin (60 # 70); Fin (80 # 70)].
Proof.
  apply parsed_radii_are_the_scaled_integers. vm_compute. reflexivity.
Defined.

(** X12.  A row that lacks one of the four quadrant columns makes
    [_parse_radii] raise [KeyError] for a column it lacks, whatever the
    other values are. *)
Theorem missing_quadrant_column_is_a_key_error (row : Series) (prefix : string)
    (scale : pyfloat) (q : string) :
  q ∈ ["SE"; "NE"; "SW"; "NW"] ->
  row !! (prefix +:+ "_" +:+ q) = None ->
  exists q', q' ∈ ["SE"; "NE"; "SW"; "NW"]
    /\ row !! (prefix +:+ "_" +:+ q') = None
    /\ plot._parse_radii row prefix scale = Raise (KeyError (prefix +:+ "_" +:+ q')).
Proof.
  intros Hq Hmiss. unfold plot._parse_radii. cbn [fmap list_fmap map_res].
  unfold getitem.
  destruct (row !! (prefix +:+ "_" +:+ "SE")) as [se|] eqn:Hse;
    [|exists "SE"; repeat split; [apply list_elem_of_In; cbn; tauto|assumption]].
  destruct (row !! (prefix +:+ "_" +:+ "NE")) as [ne|] eqn:Hne;
    [|exists "NE"; repeat split; [apply list_elem_of_In; cbn; tauto|assumption]].
  destruct (row !! (prefix +:+ "_" +:+ "SW")) as [sw|] eqn:Hsw;
    [|exists "SW"; repeat split; [apply list_elem_of_In; cbn; tauto|assumption]].
  destruct (row !! (prefix +:+ "_" +:+ "NW")) as [nw|] eqn:Hnw;
    [|exists "NW"; repeat split; [apply list_elem_of_In; cbn; tauto|assumption]].
  exfalso. repeat (apply elem_of_cons in Hq as [->|Hq]; [congruence|]).
  inversion Hq.
Qed.

Lemma missing_quadrant_column_is_a_key_error_witness :
  exists q', q' ∈ ["SE"; "NE"; "SW"; "NW"]
    /\ ({["USA_R34_SE" := CStr " "; "USA_R34_NE" := CStr "30"]} : Series)
         !! ("USA_R34" +:+ "_" +:+ q') = None
    /\ plot._parse_radii {["USA_R34_SE" := CStr " "; "USA_R34_NE" := CStr "30"]}
         "USA_R34" config.RADIUS_SCALE = Raise (KeyError ("USA_R34" +:+ "_" +:+ q')).
Proof.
  apply (missing_quadrant_column_is_a_key_error _ "USA_R34" config.RADIUS_SCALE "NW").
  - apply list_elem_of_In; cbn; tauto.
  - reflexivity.
Defined.

(** X13.  With fewer than four radii, [draw_wind_radii_arcs] raises
    [IndexError] after adding one arc for each radius it was given, and
    draws no spoke. *)
Theorem too_few_radii_raise_after_the_arcs (x y lw : pyfloat) (ec : string)
    (radii : list pyfloat) :
  (length radii < 4)%nat ->
  let m := plot.draw_wind_radii_arcs x y radii lw ec in
  result m = Raise IndexError
  /\ length (all_of arcs m) = length radii
  /\ all_of segments m = [].
Proof.
  intros Hlen.
  destruct radii as [|r0 [|r1 [|r2 [|r3 rest]]]]; cbn in Hlen; try lia;
    repeat split.
Qed.

Lemma too_few_radii_raise_after_the_arcs_witness :
  let m := plot.draw_wind_radii_arcs (Fin 0) (Fin 0) [Fin 1; Fin 2]
             config.ARC_LINEWIDTH config.COLOR_R34 in
  result m = Raise IndexError
  /\ length (all_of arcs m) = length [Fin 1; Fin 2]
  /\ all_of segments m = [].
Proof.
  apply (too_few_radii_raise_after_the_arcs (Fin 0) (Fin 0)
           config.ARC_LINEWIDTH config.COLOR_R34 [Fin 1; Fin 2]).
  cbn. lia.
Defined.

(** X14.  Radii beyond the fourth are ignored. *)
Theorem radii_beyond_the_fourth_are_ignored (x y lw : pyfloat) (ec : string)
    (r0 r1 r2 r3 : pyfloat) (rest : list pyfloat) :
  plot.draw_wind_radii_arcs x y (r0 :: r1 :: r2 :: r3 :: rest) lw ec
  = plot.draw_wind_radii_arcs x y [r0; r1; r2; r3] lw ec.
Proof. destruct rest; reflexivity. Qed.

Lemma ring_style (x y lw : pyfloat) (ec : string) (radii : list pyfloat) :
  let m := plot.draw_wind_radii_arcs x y radii lw ec in
  Forall (fun a => arc_xy a = (x, y) /\ arc_lw a = lw /\ arc_ec a = ec
                   /\ arc_fc a = "none" /\ arc_height a = arc_width a
                   /\ arc_theta2 a = arc_theta1 a + 90)
         (all_of arcs m)
  /\ Forall (fun s => s = (lw, ec)) (all_of line_styles m).
Proof.
  destruct radii as [|r0 [|r1 [|r2 [|r3 [|r4 rest]]]]]; cbn;
    split; repeat constructor.
Qed.

(** X15.  Whatever the radii, every arc of a ring is centred at the given
    point, is unfilled, is a quarter turn of a circle (equal width and
    height), and every arc and spoke has the given line width and
    colour. *)
Theorem ring_is_drawn_in_one_style (x y lw : pyfloat) (ec : string)
    (radii : list pyfloat) :
  let m := plot.draw_wind_radii_arcs x y radii lw ec in
  Forall (fun a => arc_xy a = (x, y) /\ arc_lw a = lw /\ arc_ec a = ec
                   /\ arc_fc a = "none" /\ arc_height a = arc_width a
                   /\ arc_theta2 a = arc_theta1 a + 90)
         (all_of arcs m)
  /\ Forall (fun s => s = (lw, ec)) (all_of line_styles m).
Proof. apply ring_style. Qed.

Lemma spokes_close_the_outline_witness :
  exists p q s,
    arc_point {| arc_xy := (Fin 0, Fin 0); arc_width := (Fin 2 * Fin 4)%F;
                 arc_height := (Fin 2 * Fin 4)%F; arc_theta1 := 270;
                 arc_theta2 := 360; arc_lw := config.ARC_LINEWIDTH;
                 arc_ec := config.COLOR_R34; arc_fc := "none" |} 360 = Some p
    /\ arc_point {| arc_xy := (Fin 0, Fin 0); arc_width := (Fin 2 * Fin 1)%F;
                    arc_height := (Fin 2 * Fin 1)%F; arc_theta1 := 0;
                    arc_theta2 := 90; arc_lw := config.ARC_LINEWIDTH;
                    arc_ec := config.COLOR_R34; arc_fc := "none" |} 0 = Some q
    /\ s ∈ all_of segments
             (plot.draw_wind_radii_arcs (Fin 0) (Fin 0) [Fin 1; Fin 2; Fin 3; Fin 4]
                config.ARC_LINEWIDTH config.COLOR_R34)
    /\ joins s p q.
Proof.
  apply (spokes_close_the_outline 0 0 1 2 3 4 config.ARC_LINEWIDTH config.COLOR_R34
           3%nat); reflexivity.
Defined.

(** ** The loop over the track, call by call *)

Section loop.
Context `{Runtime}.
Import config.

(** What one iteration draws and how it ends. *)
Lemma plot_row_calls c34 c50 c64 scale sign row :
  plot.plot_row c34 c50 c64 scale sign row =
  match row_point row with
  | Raise e => ([], Raise e)
  | Ok (lon, lat) =>
      let rings := row_rings c34 c50 c64 scale row (transform_point lon lat) in
      match result rings with
      | Raise e => (calls rings, Raise e)
      | Ok _ =>
          match row_text row with
          | Raise e => (calls rings ++ [row_marker lon lat], Raise e)
          | Ok text =>
              (calls rings ++ [row_marker lon lat;
                               ax_annotate text (transform_point lon lat) (side sign)],
               Ok tt)
          end
      end
  end.
Proof.
  unfold plot.plot_row, row_point, row_text, row_rings, side.
  destruct (getitem row "LON" ≫= _) as [lon|e]; [|reflexivity].
  destruct (getitem row "LAT" ≫= _) as [lat|e]; [|reflexivity].
  cbn [mbind res_bind lift draw_bind]. cbv zeta.
  destruct (transform_point lon lat) as [at_x at_y]. cbn [fst snd].
  destruct (for_ _ _) as [out [[]|e]]; cbn [result calls fst snd draw_bind mbind];
    [|reflexivity].
  destruct (getitem row "ISO_TIME" ≫= _) as [time_str|e]; cbn; [|reflexivity].
  destruct (getitem row "WMO_WIND") as [wind|e]; cbn; [|reflexivity].
  destruct (getitem row "WMO_PRES") as [pres|e]; cbn; [|reflexivity].
  destruct (0 <? sign); reflexivity.
Qed.

Lemma ring_quiet {C} (g : call -> list C) x y radii lw ec :
  (forall a, g (ax_add_patch a) = []) ->
  (forall ys a b w c, g (ax_hlines ys a b w c) = []) ->
  (forall xs a b w c, g (ax_vlines xs a b w c) = []) ->
  all_of g (plot.draw_wind_radii_arcs x y radii lw ec) = [].
Proof.
  intros Hp Hh Hv. unfold plot.draw_wind_radii_arcs.
  repeat (apply quiet_bind; [|intros]); rewrite ?all_of_lift, ?all_of_emit; auto.
  apply all_of_for. intros [rad theta]. rewrite all_of_emit. apply Hp.
Qed.

Lemma rings_quiet {C} (g : call -> list C) c34 c50 c64 scale row at_xy :
  (forall a, g (ax_add_patch a) = []) ->
  (forall ys a b w c, g (ax_hlines ys a b w c) = []) ->
  (forall xs a b w c, g (ax_vlines xs a b w c) = []) ->
  all_of g (row_rings c34 c50 c64 scale row at_xy) = [].
Proof.
  intros Hp Hh Hv. unfold row_rings. apply all_of_for. intros [prefix color].
  unfold plot.draw_threshold. apply quiet_bind; [apply all_of_lift|].
  intros [radii|]; [|reflexivity]. apply ring_quiet; assumption.
Qed.

Lemma all_of_pair {A C} (g : call -> list C) (cs : list call) (r : res A) :
  all_of g (cs, r) = concat (g <$> cs).
Proof. reflexivity. Qed.

Lemma all_of_app {C} (g : call -> list C) (cs cs' : list call) :
  concat (g <$> (cs ++ cs')) = concat (g <$> cs) ++ concat (g <$> cs').
Proof. rewrite fmap_app, concat_app. reflexivity. Qed.

(** What a whole plot draws and how it ends. *)
Lemma plot_track_calls track storm_name output_path figsize map_offset
    c34 c50 c64 scale :
  plot.plot_track track storm_name output_path figsize map_offset c34 c50 c64 scale =
  match column_as_float track "LAT" with
  | Raise e => ([plt_figure figsize], Raise e)
  | Ok lats =>
      match column_as_float track "LON" with
      | Raise e => ([plt_figure figsize], Raise e)
      | Ok lons =>
          let extent := track_extent lats lons map_offset in
          match set_extent extent with
          | Raise e =>
              ([plt_figure figsize; ax_add_feature "BORDERS";
                ax_add_feature "COASTLINE"; ax_set_extent extent], Raise e)
          | Ok _ =>
              let loop := plot.plot_rows c34 c50 c64 scale 1 (rows track) in
              match result loop with
              | Raise e =>
                  (plt_figure figsize :: base_map extent ++ calls loop, Raise e)
              | Ok _ =>
                  (plt_figure figsize :: base_map extent ++ calls loop
                     ++ [final_call output_path], Ok tt)
              end
          end
      end
  end.
Proof.
  unfold plot.plot_track, final_call.
  destruct (column_as_float track "LAT") as [lats|e]; [|reflexivity].
  destruct (column_as_float track "LON") as [lons|e]; [|reflexivity].
  unfold lift, emit. cbn [mbind draw_bind].
  rewrite setup_map_calls. cbv zeta. fold (track_extent lats lons map_offset).
  destruct (set_extent _) as [[]|e]; [|reflexivity].
  destruct (plot.plot_rows _ _ _ _ _ _) as [out [[]|e]]; [|reflexivity].
  destruct output_path as [path|]; [destruct (bool_decide (path = ""))|]; reflexivity.
Qed.

(** The markers of the loop are the points of its rows, in order. *)
Lemma plot_rows_markers c34 c50 c64 scale (track_rows : list Series) :
  forall sign,
    let m := plot.plot_rows c34 c50 c64 scale sign track_rows in
    exists done,
      done `prefix_of` track_rows
      /\ Forall2 (fun row p => row_point row = Ok p) done (all_of markers m)
      /\ (result m = Ok tt -> done = track_rows).
Proof.
  induction track_rows as [|row rest IH]; intros sign m; subst m.
  - exists []. split; [apply prefix_nil|]. split; [constructor|intros _; reflexivity].
  - cbn [plot.plot_rows]. rewrite all_of_bind, result_bind.
    rewrite plot_row_calls.
    destruct (row_point row) as [[lon lat]|e] eqn:Hpoint.
    2:{ exists []. split; [apply prefix_nil|]. split; [constructor|discriminate]. }
    cbv zeta.
    pose proof (rings_quiet markers c34 c50 c64 scale row (transform_point lon lat)
                  ltac:(reflexivity) ltac:(reflexivity) ltac:(reflexivity)) as Hq.
    unfold all_of in Hq.
    destruct (result (row_rings _ _ _ _ _ _)) as [[]|e].
    2:{ exists []. rewrite all_of_pair, Hq.
        split; [apply prefix_nil|]. split; [constructor|discriminate]. }
    destruct (row_text row) as [text|e].
    + destruct (IH (sign * -1)) as (done & Hpre & Hdone & Hall). cbv zeta in *.
      exists (row :: done). rewrite all_of_pair, all_of_app, Hq. cbn.
      split; [apply prefix_cons, Hpre|]. split.
      * constructor; [exact Hpoint | exact Hdone].
      * intros Hok. f_equal. apply Hall, Hok.
    + exists [row]. rewrite all_of_pair, all_of_app, Hq. cbn.
      split; [apply prefix_cons, prefix_nil|]. split; [|discriminate].
      repeat constructor. exact Hpoint.
Qed.

(** The annotations of the loop: one per row, with the row's text. *)
Lemma plot_rows_texts c34 c50 c64 scale (track_rows : list Series) :
  forall sign,
    let m := plot.plot_rows c34 c50 c64 scale sign track_rows in
    exists done,
      done `prefix_of` track_rows
      /\ Forall2 (fun row a => row_text row = Ok a.1.1) done (all_of annotations m)
      /\ (result m = Ok tt -> done = track_rows).
Proof.
  induction track_rows as [|row rest IH]; intros sign m; subst m.
  - exists []. split; [apply prefix_nil|]. split; [constructor|intros _; reflexivity].
  - cbn [plot.plot_rows]. rewrite all_of_bind, result_bind.
    rewrite plot_row_calls.
    destruct (row_point row) as [[lon lat]|e] eqn:Hpoint.
    2:{ exists []. split; [apply prefix_nil|]. split; [constructor|discriminate]. }
    cbv zeta.
    pose proof (rings_quiet annotations c34 c50 c64 scale row (transform_point lon lat)
                  ltac:(reflexivity) ltac:(reflexivity) ltac:(reflexivity)) as Hq.
    unfold all_of in Hq.
    destruct (result (row_rings _ _ _ _ _ _)) as [[]|e].
    2:{ exists []. rewrite all_of_pair, Hq.
        split; [apply prefix_nil|]. split; [constructor|discriminate]. }
    destruct (row_text row) as [text|e] eqn:Htext.
    + destruct (IH (sign * -1)) as (done & Hpre & Hdone & Hall). cbv zeta in *.
      exists (row :: done). rewrite all_of_pair, all_of_app, Hq. cbn.
      split; [apply prefix_cons, Hpre|]. split.
      * constructor; [exact Htext | exact Hdone].
      * intros Hok. f_equal. apply Hall, Hok.
    + exists []. rewrite all_of_pair, all_of_app, Hq. cbn.
      split; [apply prefix_nil|]. split; [constructor|discriminate].
Qed.

(** Nothing in the loop puts the figure out. *)
Lemma plot_rows_no_output c34 c50 c64 scale (track_rows : list Series) :
  forall sign, all_of outputs (plot.plot_rows c34 c50 c64 scale sign track_rows) = [].
Proof.
  induction track_rows as [|row rest IH]; intros sign; [reflexivity|].
  cbn [plot.plot_rows]. apply quiet_bind; [|intros; apply IH].
  rewrite plot_row_calls.
  destruct (row_point row) as [[lon lat]|e]; [|reflexivity]. cbv zeta.
  pose proof (rings_quiet outputs c34 c50 c64 scale row (transform_point lon lat)
                ltac:(reflexivity) ltac:(reflexivity) ltac:(reflexivity)) as Hq.
  unfold all_of in Hq.
  destruct (result (row_rings _ _ _ _ _ _)) as [[]|e]; [|exact Hq].
  destruct (row_text row) as [text|e]; rewrite all_of_pair, all_of_app, Hq; reflexivity.
Qed.

(** The arcs of the loop sit at the points of its rows and have the
    arc line width and one of the three colours. *)
Lemma plot_rows_arcs c34 c50 c64 scale (track_rows : list Series) :
  forall sign,
    Forall (fun a => exists row lon lat,
              row ∈ track_rows /\ row_point row = Ok (lon, lat)
              /\ arc_xy a = transform_point lon lat
              /\ arc_lw a = ARC_LINEWIDTH
              /\ arc_ec a ∈ [c34; c50; c64])
           (all_of arcs (plot.plot_rows c34 c50 c64 scale sign track_rows)).
Proof.
  induction track_rows as [|row rest IH]; intros sign; [constructor|].
  cbn [plot.plot_rows]. rewrite all_of_bind. apply Forall_app. split.
  - rewrite plot_row_calls.
    destruct (row_point row) as [[lon lat]|e] eqn:Hpoint; [|constructor]. cbv zeta.
    assert (Hrings : Forall (fun a => arc_xy a = transform_point lon lat
                                      /\ arc_lw a = ARC_LINEWIDTH
                                      /\ arc_ec a ∈ [c34; c50; c64])
                       (all_of arcs (row_rings c34 c50 c64 scale row
                                       (transform_point lon lat)))).
    { unfold row_rings. destruct (transform_point lon lat) as [x y]. cbn [fst snd].
      assert (Hone : forall prefix color, color ∈ [c34; c50; c64] ->
                Forall (fun a => arc_xy a = (x, y) /\ arc_lw a = ARC_LINEWIDTH
                                 /\ arc_ec a ∈ [c34; c50; c64])
                  (all_of arcs (plot.draw_threshold row x y scale (prefix, color)))).
      { intros prefix color Hcolor. unfold plot.draw_threshold.
        rewrite all_of_bind, all_of_lift, result_lift. cbn [app].
        destruct (plot._parse_radii row prefix scale) as [[radii|]|e]; try constructor.
        destruct (ring_style x y ARC_LINEWIDTH color radii) as [Harcs _].
        cbv zeta in Harcs. eapply Forall_impl; [exact Harcs|].
        cbn. intros a (Hxy & Hlw & Hec & _). rewrite Hec. auto. }
      cbn [for_]. rewrite !all_of_bind. repeat (apply Forall_app; split).
      - apply Hone. apply list_elem_of_In. cbn. tauto.
      - destruct (result _); [|constructor]. repeat (apply Forall_app; split).
        + apply Hone. apply list_elem_of_In. cbn. tauto.
        + destruct (result _); [|constructor]. repeat (apply Forall_app; split).
          * apply Hone. apply list_elem_of_In. cbn. tauto.
          * destruct (result _); constructor. }
    assert (Hrow : Forall (fun a => exists row0 lon0 lat0,
                row0 ∈ row :: rest /\ row_point row0 = Ok (lon0, lat0)
                /\ arc_xy a = transform_point lon0 lat0
                /\ arc_lw a = ARC_LINEWIDTH /\ arc_ec a ∈ [c34; c50; c64])
              (all_of arcs (row_rings c34 c50 c64 scale row (transform_point lon lat)))).
    { eapply Forall_impl; [exact Hrings|]. cbn. intros a Ha.
      exists row, lon, lat. split; [apply list_elem_of_here|]. split; [exact Hpoint|exact Ha]. }
    unfold all_of in Hrow.
    destruct (result (row_rings _ _ _ _ _ _)) as [[]|e]; [|exact Hrow].
    destruct (row_text row) as [text|e]; rewrite all_of_pair, all_of_app;
      apply Forall_app; split; try exact Hrow; constructor.
  - destruct (result _) as [u|e]; [|constructor].
    eapply Forall_impl; [apply IH|]. cbn.
    intros a (row0 & lon & lat & Hin & Hrest). exists row0, lon, lat.
    split; [apply list_elem_of_further, Hin | exact Hrest].
Qed.

(** The loop never changes the extent of the map. *)
Lemma rings_free_of_extents c34 c50 c64 scale (track_rows : list Series) :
  forall sign,
    concat (extents <$> calls (plot.plot_rows c34 c50 c64 scale sign track_rows)) = [].
Proof.
  induction track_rows as [|row rest IH]; intros sign; [reflexivity|].
  cbn [plot.plot_rows]. apply (quiet_bind extents); [|intros; apply IH].
  rewrite plot_row_calls.
  destruct (row_point row) as [[lon lat]|e]; [|reflexivity]. cbv zeta.
  pose proof (rings_quiet extents c34 c50 c64 scale row (transform_point lon lat)
                ltac:(reflexivity) ltac:(reflexivity) ltac:(reflexivity)) as Hq.
  unfold all_of in Hq.
  destruct (result (row_rings _ _ _ _ _ _)) as [[]|e]; [|exact Hq].
  destruct (row_text row) as [text|e]; rewrite all_of_pair, all_of_app, Hq; reflexivity.
Qed.

End loop.

(** ** Whole plots *)

Section plots.
Context `{Runtime}.
Import config.

Lemma series_min_le (l : list pyfloat) (q : Q) :
  Fin q ∈ l -> exists a, series_min l = Fin a /\ (a <= q)%Q.
Proof.
  induction l as [|x l IH]; intros Hin; [inversion Hin|].
  change (series_min (x :: l)) with (float_min x (series_min l)).
  apply elem_of_cons in Hin as [<-|Hin].
  - destruct (series_min l) as [|y]; unfold float_min.
    + exists q. split; [reflexivity|apply Qle_refl].
    + destruct (Qle_bool q y) eqn:E.
      * exists q. split; [reflexivity|apply Qle_refl].
      * exists y. split; [reflexivity|].
        apply Qlt_le_weak, Qnot_le_lt. intros Hle. apply Qle_bool_iff in Hle. congruence.
  - destruct (IH Hin) as (a & -> & Ha). destruct x as [|x]; unfold float_min.
    + exists a. auto.
    + destruct (Qle_bool x a) eqn:E.
      * exists x. split; [reflexivity|]. apply Qle_bool_iff in E.
        eapply Qle_trans; eassumption.
      * exists a. auto.
Qed.

Lemma series_max_ge (l : list pyfloat) (q : Q) :
  Fin q ∈ l -> exists b, series_max l = Fin b /\ (q <= b)%Q.
Proof.
  induction l as [|x l IH]; intros Hin; [inversion Hin|].
  change (series_max (x :: l)) with (float_max x (series_max l)).
  apply elem_of_cons in Hin as [<-|Hin].
  - destruct (series_max l) as [|y]; unfold float_max.
    + exists q. split; [reflexivity|apply Qle_refl].
    + destruct (Qle_bool q y) eqn:E.
      * exists y. split; [reflexivity|]. apply Qle_bool_iff. exact E.
      * exists q. split; [reflexivity|apply Qle_refl].
  - destruct (IH Hin) as (b & -> & Hb). destruct x as [|x]; unfold float_max.
    + exists b. auto.
    + destruct (Qle_bool x b) eqn:E.
      * exists b. auto.
      * exists x. split; [reflexivity|].
        assert (b < x)%Q.
        { apply Qnot_le_lt. intros Hle. apply Qle_bool_iff in Hle. congruence. }
        apply Qlt_le_weak. eapply Qle_lt_trans; eassumption.
Qed.

Lemma final_call_quiet {C} (g : call -> list C) (output_path : option string) :
  (forall p, g (plt_savefig p) = []) -> g plt_show = [] ->
  g (final_call output_path) = [].
Proof.
  intros Hs Hw. unfold final_call.
  destruct output_path as [p|]; [destruct (bool_decide (p = ""))|]; auto.
Qed.

Lemma column_holds_row_value (track : DataFrame) (c : string) (l : list pyfloat)
    (row : Series) (f : pyfloat) :
  column_as_float track c = Ok l -> row ∈ rows track ->
  (v ← getitem row c; to_float v) = Ok f -> f ∈ l.
Proof.
  unfold column_as_float. case_bool_decide; [|discriminate]. intros Hl Hrow Hf.
  apply map_res_ok in Hl. apply bind_ok in Hf as (v & Hv & Hf).
  unfold getitem in Hv. destruct (row !! c) as [v'|] eqn:Hc; [|discriminate].
  injection Hv as ->.
  apply list_elem_of_lookup in Hrow as [i Hi].
  destruct (Forall2_lookup_l _ _ _ _ _ Hl Hi) as (f' & Hf' & Hconv).
  unfold cell_at in Hconv. rewrite Hc in Hconv. cbn in Hconv.
  assert (f' = f) as -> by congruence.
  apply list_elem_of_lookup. eauto.
Qed.

Lemma row_point_parts (row : Series) (lon lat : pyfloat) :
  row_point row = Ok (lon, lat) ->
  (v ← getitem row "LON"; to_float v) = Ok lon
  /\ (v ← getitem row "LAT"; to_float v) = Ok lat.
Proof.
  unfold row_point. intros Hp.
  apply bind_ok in Hp as (lon' & Hlon & Hp). apply bind_ok in Hp as (lat' & Hlat & [= <- <-]).
  split; assumption.
Qed.

(** X17.  With a padding that is not negative, every marker of a plot
    lies within the extent the plot requests for its map. *)
Theorem markers_lie_within_the_extent (track : DataFrame) (storm_name : string)
    (output_path : option string) (figsize : Z * Z) (pad : Q)
    (c34 c50 c64 : string) (scale : pyfloat) (lx ly : Q) :
  (0 <= pad)%Q ->
  let m := plot.plot_track track storm_name output_path figsize (Fin pad)
             c34 c50 c64 scale in
  (Fin lx, Fin ly) ∈ all_of markers m ->
  exists west east south north,
    all_of extents m = [[Fin west; Fin east; Fin south; Fin north]]
    /\ (west <= lx <= east)%Q /\ (south <= ly <= north)%Q.
Proof.
  intros Hpad m Hin. subst m. rewrite plot_track_calls in *.
  destruct (column_as_float track "LAT") as [lats|e] eqn:Hlats; [|inversion Hin].
  destruct (column_as_float track "LON") as [lons|e] eqn:Hlons; [|inversion Hin].
  cbv zeta in *.
  destruct (set_extent _) as [[]|e]; [|inversion Hin].
  destruct (plot_rows_markers c34 c50 c64 scale (rows track) 1)
    as (done & Hpre & Hdone & _). cbv zeta in Hdone.
  assert (Hloop : (Fin lx, Fin ly) ∈
                  all_of markers (plot.plot_rows c34 c50 c64 scale 1 (rows track))).
  { unfold all_of at 1 in Hin. unfold all_of.
    destruct (result (plot.plot_rows _ _ _ _ _ _)) as [[]|e];
      cbn [calls fst] in Hin;
      rewrite fmap_cons, concat_cons, !all_of_app in Hin; cbn in Hin;
      rewrite ?(final_call_quiet markers) in Hin by reflexivity;
      rewrite ?app_nil_r in Hin; exact Hin. }
  apply list_elem_of_lookup in Hloop as [i Hi].
  destruct (Forall2_lookup_r _ _ _ _ _ Hdone Hi) as (row & Hrow & Hpoint).
  apply row_point_parts in Hpoint as [Hlon Hlat].
  assert (Hrow' : row ∈ rows track).
  { destruct Hpre as [k ->]. apply elem_of_app. left.
    apply list_elem_of_lookup. eauto. }
  pose proof (column_holds_row_value _ _ _ _ _ Hlons Hrow' Hlon) as Hx.
  pose proof (column_holds_row_value _ _ _ _ _ Hlats Hrow' Hlat) as Hy.
  destruct (series_min_le _ _ Hx) as (w & Hw & Hwle).
  destruct (series_max_ge _ _ Hx) as (e & He & Hele).
  destruct (series_min_le _ _ Hy) as (s & Hs & Hsle).
  destruct (series_max_ge _ _ Hy) as (n & Hn & Hnle).
  exists (w - pad)%Q, (e + pad)%Q, (s - pad)%Q, (n + pad)%Q. split.
  - unfold track_extent. rewrite Hw, He, Hs, Hn. unfold all_of.
    destruct (result (plot.plot_rows _ _ _ _ _ _)) as [[]|e'];
      cbn [calls fst]; rewrite fmap_cons, concat_cons, !all_of_app; cbn;
      rewrite (rings_free_of_extents c34 c50 c64 scale (rows track) 1);
      rewrite ?(final_call_quiet extents) by reflexivity; reflexivity.
  - split; split; lra.
Qed.

(** Outside its loop a plot makes no call that [g] reads, when [g] reads
    none of the figure, base-map and output calls. *)
Lemma plot_track_loop {C} (g : call -> list C) track storm_name output_path figsize
    map_offset c34 c50 c64 scale :
  (forall s, g (plt_figure s) = []) -> (forall f, g (ax_add_feature f) = []) ->
  (forall e, g (ax_set_extent e) = []) -> (forall a b, g (ax_gridlines a b) = []) ->
  (forall p, g (plt_savefig p) = []) -> g plt_show = [] ->
  let m := plot.plot_track track storm_name output_path figsize map_offset
             c34 c50 c64 scale in
  let loop := plot.plot_rows c34 c50 c64 scale 1 (rows track) in
  (all_of g m = [] \/ all_of g m = all_of g loop)
  /\ (result m = Ok tt -> all_of g m = all_of g loop /\ result loop = Ok tt).
Proof.
  intros Hfig Hfeat Hext Hgrid Hsave Hshow m loop. subst m loop.
  rewrite plot_track_calls.
  destruct (column_as_float track "LAT") as [lats|e].
  2:{ split; [left|discriminate]. unfold all_of. cbn. rewrite Hfig. reflexivity. }
  destruct (column_as_float track "LON") as [lons|e].
  2:{ split; [left|discriminate]. unfold all_of. cbn. rewrite Hfig. reflexivity. }
  cbv zeta.
  destruct (set_extent _) as [[]|e].
  2:{ split; [left|discriminate]. unfold all_of. cbn.
      rewrite Hfig, !Hfeat, Hext. reflexivity. }
  destruct (result (plot.plot_rows _ _ _ _ _ _)) as [[]|e];
    rewrite !all_of_pair, fmap_cons, concat_cons, !all_of_app; cbn;
    rewrite Hfig, !Hfeat, Hext, Hgrid, ?(final_call_quiet g) by assumption;
    cbn; rewrite ?app_nil_r; fold (all_of g (plot.plot_rows c34 c50 c64 scale 1 (rows track))).
  - split; [right; reflexivity|]. intros _. split; reflexivity.
  - split; [right; reflexivity|discriminate].
Qed.

(** X18.  A plot that completes has drawn, for every row and in the
    order of the rows, one marker at the row's longitude and latitude and
    one annotation with the row's text. *)
Theorem completed_plot_marks_every_row (track : DataFrame) (storm_name : string)
    (output_path : option string) (figsize : Z * Z) (map_offset : pyfloat)
    (c34 c50 c64 : string) (scale : pyfloat) :
  let m := plot.plot_track track storm_name output_path figsize map_offset
             c34 c50 c64 scale in
  result m = Ok tt ->
  Forall2 (fun row p => row_point row = Ok p) (rows track) (all_of markers m)
  /\ Forall2 (fun row a => row_text row = Ok a.1.1) (rows track)
        (all_of annotations m).
Proof.
  intros m Hok. subst m. split.
  - destruct (plot_track_loop markers track storm_name output_path figsize map_offset
                c34 c50 c64 scale) as [_ Hloop]; try reflexivity.
    destruct (Hloop Hok) as [-> Hres].
    destruct (plot_rows_markers c34 c50 c64 scale (rows track) 1)
      as (done & _ & Hdone & Hall). cbv zeta in *. rewrite <- (Hall Hres) at 1.
    exact Hdone.
  - destruct (plot_track_loop annotations track storm_name output_path figsize
                map_offset c34 c50 c64 scale) as [_ Hloop]; try reflexivity.
    destruct (Hloop Hok) as [-> Hres].
    destruct (plot_rows_texts c34 c50 c64 scale (rows track) 1)
      as (done & _ & Hdone & Hall). cbv zeta in *. rewrite <- (Hall Hres) at 1.
    exact Hdone.
Qed.

Lemma plot_track_outputs track storm_name output_path figsize map_offset
    c34 c50 c64 scale :
  let m := plot.plot_track track storm_name output_path figsize map_offset
             c34 c50 c64 scale in
  match result m with
  | Ok _ => all_of outputs m = [final_call output_path]
            /\ last (calls m) = Some (final_call output_path)
  | Raise _ => all_of outputs m = []
  end.
Proof.
  intros m. subst m. rewrite plot_track_calls.
  destruct (column_as_float track "LAT") as [lats|e]; [|reflexivity].
  destruct (column_as_float track "LON") as [lons|e]; [|reflexivity].
  cbv zeta. destruct (set_extent _) as [[]|e]; [|reflexivity].
  pose proof (plot_rows_no_output c34 c50 c64 scale (rows track) 1) as Hq.
  unfold all_of in *.
  destruct (result (plot.plot_rows _ _ _ _ _ _)) as [[]|e]; cbn [result calls fst snd];
    rewrite fmap_cons, concat_cons, !all_of_app, Hq.
  - split.
    + cbn. unfold final_call.
      destruct output_path as [p|]; [destruct (bool_decide (p = ""))|]; reflexivity.
    + rewrite app_comm_cons, app_assoc. apply last_snoc.
  - reflexivity.
Qed.

(** X19.  A plot that completes puts the figure out exactly once, as its
    last call: saved to the output path when one is given and not empty,
    shown otherwise.  A plot that raises neither saves nor shows. *)
Theorem figure_is_put_out_once_at_the_end (track : DataFrame) (storm_name : string)
    (output_path : option string) (figsize : Z * Z) (map_offset : pyfloat)
    (c34 c50 c64 : string) (scale : pyfloat) :
  let m := plot.plot_track track storm_name output_path figsize map_offset
             c34 c50 c64 scale in
  match result m with
  | Ok _ => all_of outputs m = [final_call output_path]
            /\ last (calls m) = Some (final_call output_path)
  | Raise _ => all_of outputs m = []
  end.
Proof. apply plot_track_outputs. Qed.

(** X20.  The text of the annotation of row [i] is the day and the hour
    of its timestamp, two digits each, followed by its official wind and
    pressure: [DD/HHZ, <wind> KTS, <pressure> hPa]. *)
Theorem annotation_text_of_a_row (track : DataFrame) (storm_name : string)
    (output_path : option string) (figsize : Z * Z) (map_offset : pyfloat)
    (c34 c50 c64 : string) (scale : pyfloat)
    (i : nat) (text : string) (xy : point) (off : Z * Z)
    (row : Series) (y mo d h mi s : Z) (wind pres : cell) :
  all_of annotations
    (plot.plot_track track storm_name output_path figsize map_offset c34 c50 c64 scale)
    !! i = Some (text, xy, off) ->
  rows track !! i = Some row ->
  row !! "ISO_TIME" = Some (CTime (Timestamp y mo d h mi s)) ->
  row !! "WMO_WIND" = Some wind ->
  row !! "WMO_PRES" = Some pres ->
  text = ((two_digits d +:+ "/" +:+ two_digits h) +:+ "Z") +:+ ", "
         +:+ cell_str wind +:+ " KTS, " +:+ cell_str pres +:+ " hPa".
Proof.
  intros Hi Hrow Htime Hwind Hpres.
  destruct (plot_track_loop annotations track storm_name output_path figsize
              map_offset c34 c50 c64 scale) as [[Hnone|Hloop] _]; try reflexivity;
    cbv zeta in *.
  { rewrite Hnone in Hi. discriminate. }
  rewrite Hloop in Hi.
  destruct (plot_rows_texts c34 c50 c64 scale (rows track) 1)
    as (done & Hpre & Hdone & _). cbv zeta in *.
  destruct (Forall2_lookup_r _ _ _ _ _ Hdone Hi) as (row' & Hrow' & Htext).
  assert (row' = row) as ->.
  { destruct Hpre as [k Hk]. rewrite Hk in Hrow.
    rewrite (lookup_app_l_Some _ _ _ _ Hrow') in Hrow. congruence. }
  unfold row_text, getitem in Htext. rewrite Htime, Hwind, Hpres in Htext.
  cbn in Htext. injection Htext as <-. reflexivity.
Qed.

(** X21.  Every arc of a plot is centred at the projected point of a row
    of the track, has the arc line width of the configuration and one of
    the three threshold colours. *)
Theorem rings_sit_at_the_projected_points (track : DataFrame) (storm_name : string)
    (output_path : option string) (figsize : Z * Z) (map_offset : pyfloat)
    (c34 c50 c64 : string) (scale : pyfloat) :
  Forall (fun a => exists row lon lat,
            row ∈ rows track /\ row_point row = Ok (lon, lat)
            /\ arc_xy a = transform_point lon lat
            /\ arc_lw a = ARC_LINEWIDTH
            /\ arc_ec a ∈ [c34; c50; c64])
         (all_of arcs (plot.plot_track track storm_name output_path figsize
                         map_offset c34 c50 c64 scale)).
Proof.
  destruct (plot_track_loop arcs track storm_name output_path figsize
              map_offset c34 c50 c64 scale) as [[->| ->] _]; try reflexivity.
  - constructor.
  - apply plot_rows_arcs.
Qed.

End plots.

(** ** The rings of a whole plot *)

Section rings.
Context `{Runtime}.
Import config.



Lemma all_of_ret {C} (g : call -> list C) : all_of g (mret tt : Draw unit) = [].
Proof. reflexivity. Qed.



End rings.




(** The rings of the scenario: the 34-kt ring whole, the 50-kt and 64-kt
    rings, whose values are blank, skipped. *)
Example teststorm_rings :
  (fun g => group_present g.1 g.2.1)
    <$> groups teststorm_2020 config.COLOR_R34 config.COLOR_R50 config.COLOR_R64
  = [true; false; false].
Proof. vm_compute. reflexivity. Qed.

(** ** The command line *)

Section command_line.
Context `{Runtime} (read_csv : string -> res DataFrame).

Lemma append_nonempty (s t : string) : t <> "" -> s +:+ t <> "".
Proof. destruct s; [auto | discriminate]. Qed.

Lemma output_path_nonempty (args : cli.Namespace) : cli.output_path args <> "".
Proof.
  assert (Hdefault : cli.storm_name args +:+ "_" +:+ str_int (cli.year args)
                     +:+ "_track.png" <> "").
  { apply append_nonempty. discriminate. }
  unfold cli.output_path. destruct (cli.output args) as [p|]; [|exact Hdefault].
  case_bool_decide; assumption.
Qed.

(** X22.  [main] never shows the figure: when it completes it has saved
    it once, as its last call, to the output path (which is never empty);
    when it raises it has saved nothing. *)
Theorem main_saves_and_never_shows (args : cli.Namespace) :
  let m := cli.main read_csv args in
  match result m with
  | Ok _ => all_of outputs m = [plt_savefig (cli.output_path args)]
            /\ last (calls m) = Some (plt_savefig (cli.output_path args))
  | Raise _ => all_of outputs m = []
  end.
Proof.
  intros m. subst m. unfold cli.main.
  destruct (ibtracs.get_storm_track _ _ _ _ _) as [track|e]; [|reflexivity].
  pose proof (plot_track_outputs track (cli.storm_name args)
                (Some (cli.output_path args)) config.FIGURE_SIZE (cli.map_offset args)
                (cli.color_r34 args) (cli.color_r50 args) (cli.color_r64 args)
                (cli.radius_scale args)) as Hout.
  cbv zeta in Hout. unfold final_call in Hout.
  rewrite bool_decide_eq_false_2 in Hout by apply output_path_nonempty.
  unfold lift. cbn [mbind draw_bind].
  destruct (plot.plot_track _ _ _ _ _ _ _ _ _) as [out r]. exact Hout.
Qed.

(** X23.  When the archive cannot be read, or lacks one of the extracted
    columns, [main] raises and makes no call to the plotting library. *)
Theorem unusable_archive_draws_nothing (args : cli.Namespace) :
  (forall archive, read_csv (cli.ibt_csv args) = Ok archive ->
                   ~ ibtracs._EXTRACT_VARS ⊆ columns archive) ->
  exists e, cli.main read_csv args = ([], Raise e).
Proof.
  intros Hbad. unfold cli.main.
  destruct (ibtracs.get_storm_track _ _ _ _ _) as [track|e] eqn:Hload.
  - exfalso. pose proof Hload as Hsteps.
    apply get_storm_track_steps in Hsteps
      as (archive & ys & ye & named & timed & inyear & cols & kept & both & Hread & _).
    apply (Hbad archive Hread).
    eapply loaded_archive_has_the_columns; eassumption.
  - exists e. reflexivity.
Qed.

End command_line.

(** ** The further properties, evaluated *)

Lemma returned_times_lie_in_the_year_witness :
  every_row (fun r => exists t, r !! "ISO_TIME" = Some (CTime t)
                                /\ t <> NaT
                                /\ dt_ge t (Timestamp 2020 1 1 0 0 0) = true
                                /\ dt_lt t (Timestamp 2021 1 1 0 0 0) = true)
            laura_2020.
Proof.
  apply (returned_times_lie_in_the_year (H := sample.runtime) sample.files
           "LAURA" 2020 "mixed.csv" false laura_2020).
  - apply loaded_ok. vm_compute. reflexivity.
  - vm_compute. reflexivity.
  - vm_compute. reflexivity.
Defined.

Lemma returned_frame_has_the_extracted_columns_witness :
  columns laura_2020 = ibtracs._EXTRACT_VARS ++ ["LON_180"]
  /\ every_row (fun r => forall c, is_Some (r !! c) -> c ∈ columns laura_2020)
       laura_2020.
Proof.
  apply (returned_frame_has_the_extracted_columns (H := sample.runtime) sample.files
           "LAURA" 2020 "mixed.csv" false laura_2020).
  apply loaded_ok. vm_compute. reflexivity.
Defined.

Lemma load_needs_every_extracted_column_witness :
  ibtracs._EXTRACT_VARS ⊆ columns sample.mixed.
Proof.
  apply (load_needs_every_extracted_column (H := sample.runtime) sample.files
           "LAURA" 2020 "mixed.csv" false sample.mixed laura_2020).
  - reflexivity.
  - apply loaded_ok. vm_compute. reflexivity.
Defined.

Lemma rows_keep_their_order_and_fields_witness :
  exists kept,
    kept `sublist_of` tail (rows sample.mixed)
    /\ Forall2 passed_through kept (rows laura_2020).
Proof.
  apply (rows_keep_their_order_and_fields (H := sample.runtime) sample.files
           "LAURA" 2020 "mixed.csv" false sample.mixed laura_2020).
  - reflexivity.
  - apply loaded_ok. vm_compute. reflexivity.
Defined.

Lemma filter_removes_exactly_the_blank_rows_witness :
  ibtracs.get_storm_track (H := sample.runtime) sample.files
    "LAURA" 2020 "mixed.csv" true
  = Ok {| columns := columns laura_2020;
          rows := List.filter official_fields_given (rows laura_2020) |}.
Proof.
  apply (filter_removes_exactly_the_blank_rows (H := sample.runtime) sample.files
           "LAURA" 2020 "mixed.csv" laura_2020).
  apply loaded_ok. vm_compute. reflexivity.
Defined.

Lemma filter_drops_blank_official_fields_witness :
  every_row (fun r => r !! "WMO_WIND" <> Some (CStr " ")
                      /\ r !! "WMO_PRES" <> Some (CStr " "))
    (loaded (ibtracs.get_storm_track (H := sample.runtime) sample.files
               "LAURA" 2020 "mixed.csv" true)).
Proof.
  apply (filter_drops_blank_official_fields (H := sample.runtime) sample.files
           "LAURA" 2020 "mixed.csv").
  apply loaded_ok. vm_compute. reflexivity.
Defined.

Lemma markers_lie_within_the_extent_witness :
  exists west east south north,
    all_of extents
      (plot.plot_track (H := sample.runtime) teststorm_2020 "TESTSTORM" None
         config.FIGURE_SIZE (Fin 10) config.COLOR_R34 config.COLOR_R50
         config.COLOR_R64 config.RADIUS_SCALE)
    = [[Fin west; Fin east; Fin south; Fin north]]
    /\ (west <= 320.0 <= east)%Q /\ (south <= 20.0 <= north)%Q.
Proof.
  apply (markers_lie_within_the_extent (H := sample.runtime) teststorm_2020
           "TESTSTORM" None config.FIGURE_SIZE 10 config.COLOR_R34 config.COLOR_R50
           config.COLOR_R64 config.RADIUS_SCALE 320.0 20.0).
  - discriminate.
  - vm_compute. constructor.
Defined.

Lemma completed_plot_marks_every_row_witness :
  let m := plot.plot_track (H := sample.runtime) ida_2021 "IDA"
             (Some "IDA_2021_track.png") config.FIGURE_SIZE config.MAP_OFFSET
             config.COLOR_R34 config.COLOR_R50 config.COLOR_R64 config.RADIUS_SCALE in
  Forall2 (fun row p => row_point (H := sample.runtime) row = Ok p)
          (rows ida_2021) (all_of markers m)
  /\ Forall2 (fun row a => row_text (H := sample.runtime) row = Ok a.1.1)
       (rows ida_2021) (all_of annotations m).
Proof.
  apply (completed_plot_marks_every_row (H := sample.runtime) ida_2021 "IDA"
           (Some "IDA_2021_track.png") config.FIGURE_SIZE config.MAP_OFFSET
           config.COLOR_R34 config.COLOR_R50 config.COLOR_R64 config.RADIUS_SCALE).
  vm_compute. reflexivity.
Defined.

Lemma annotation_text_of_a_row_witness :
  "26/18Z, 35 KTS, 1004 hPa"
  = ((two_digits 26 +:+ "/" +:+ two_digits 18) +:+ "Z") +:+ ", "
    +:+ cell_str (H := sample.runtime) (CStr "35") +:+ " KTS, "
    +:+ cell_str (H := sample.runtime) (CStr "1004") +:+ " hPa".
Proof.
  apply (annotation_text_of_a_row (H := sample.runtime) ida_2021 "IDA"
           (Some "IDA_2021_track.png") config.FIGURE_SIZE config.MAP_OFFSET
           config.COLOR_R34 config.COLOR_R50 config.COLOR_R64 config.RADIUS_SCALE
           1%nat "26/18Z, 35 KTS, 1004 hPa" (Fin 279.8, Fin 18.3) (-280, -5)
           (default ∅ (rows ida_2021 !! 1%nat)) 2021 8 26 18 0 0).
  - vm_compute. reflexivity.
  - apply lookup_default. vm_compute. lia.
  - vm_compute. reflexivity.
  - vm_compute. reflexivity.
  - vm_compute. reflexivity.
Defined.

Lemma unusable_archive_draws_nothing_witness :
  exists e, cli.main (H := sample.runtime) sample.files
              (sample.args "ida" 2021 "nowhere.csv" false) = ([], Raise e).
Proof.
  apply (unusable_archive_draws_nothing (H := sample.runtime) sample.files
           (sample.args "ida" 2021 "nowhere.csv" false)).
  intros archive Hread. vm_compute in Hread. discriminate.
Defined.
